(** * open62541: MQTT PubSub channel and nodestore switch

    A shallow embedding of [plugins/ua_network_pubsub_mqtt.c] (the MQTT
    PubSub channel: QoS translation, [open], [regist], [unregist], [send],
    [close], [yield]) and of the scenario of
    [examples/server_nodestore_switch.c], with the properties stated about
    them.

    C objects live in an explicit heap ([gmap] from addresses to blocks);
    every function of the plugin is a computation in a state monad over that
    heap which has no result when the C code would dereference or free an
    invalid pointer.  Answers of the outside world (whether an allocation
    succeeds, what the MQTT adapter returns) are explicit arguments. *)

From Stdlib Require Import ZArith String List Lia.
From stdpp Require Import base option gmap strings list fin_maps.

Local Open Scope Z_scope.

(** [UA_PubSubChannelState]: the three states the plugin tests or assigns. *)
Inductive UA_PubSubChannelState :=
| UA_PUBSUB_CHANNEL_RDY
| UA_PUBSUB_CHANNEL_ERROR
| UA_PUBSUB_CHANNEL_CLOSED.

#[global] Instance UA_PubSubChannelState_eq_dec : EqDecision UA_PubSubChannelState.
Proof. solve_decision. Defined.

(** ** Constants of the library headers

    The numeric values of the status codes and of the enumerators of
    [UA_BrokerTransportQualityOfService] are fixed by headers that the two
    source files include.  The plugin is modelled for any choice of values
    that a C compiler accepts for its [switch] (pairwise distinct labels) and
    for which [if(ret)] and [ret != UA_STATUSCODE_GOOD] agree.
    [UA_PUBSUB_CHANNEL_zero] is the state a zero-filled [UA_PubSubChannel]
    reads as. *)

Class HeaderConstants : Type := {
  UA_STATUSCODE_GOOD : Z;
  UA_STATUSCODE_BADINTERNALERROR : Z;
  UA_STATUSCODE_BADINVALIDARGUMENT : Z;
  UA_STATUSCODE_BADCONNECTIONCLOSED : Z;
  UA_STATUSCODE_BADARGUMENTSMISSING : Z;
  UA_BROKERTRANSPORTQUALITYOFSERVICE_BESTEFFORT : Z;
  UA_BROKERTRANSPORTQUALITYOFSERVICE_ATLEASTONCE : Z;
  UA_BROKERTRANSPORTQUALITYOFSERVICE_ATMOSTONCE : Z;
  UA_PUBSUB_CHANNEL_zero : UA_PubSubChannelState;
  good_is_zero : UA_STATUSCODE_GOOD = 0;
  bad_is_nonzero :
    Forall (fun c => c <> 0)
      [UA_STATUSCODE_BADINTERNALERROR; UA_STATUSCODE_BADINVALIDARGUMENT;
       UA_STATUSCODE_BADCONNECTIONCLOSED; UA_STATUSCODE_BADARGUMENTSMISSING];
  qos_labels_distinct :
    NoDup [UA_BROKERTRANSPORTQUALITYOFSERVICE_BESTEFFORT;
           UA_BROKERTRANSPORTQUALITYOFSERVICE_ATLEASTONCE;
           UA_BROKERTRANSPORTQUALITYOFSERVICE_ATMOSTONCE]
}.

(** The values of the OPC UA specification (status codes of Part 6,
    BrokerTransportQualityOfService of Part 14), used wherever a statement is
    evaluated on a concrete input. *)
#[global, refine]
Instance opcua_constants : HeaderConstants := {|
  UA_STATUSCODE_GOOD := 0;
  UA_STATUSCODE_BADINTERNALERROR := 0x80020000;
  UA_STATUSCODE_BADINVALIDARGUMENT := 0x80AB0000;
  UA_STATUSCODE_BADCONNECTIONCLOSED := 0x80AE0000;
  UA_STATUSCODE_BADARGUMENTSMISSING := 0x80760000;
  UA_BROKERTRANSPORTQUALITYOFSERVICE_BESTEFFORT := 1;
  UA_BROKERTRANSPORTQUALITYOFSERVICE_ATLEASTONCE := 2;
  UA_BROKERTRANSPORTQUALITYOFSERVICE_ATMOSTONCE := 3;
  UA_PUBSUB_CHANNEL_zero := UA_PUBSUB_CHANNEL_RDY
|}.
Proof.
  - reflexivity.
  - repeat constructor; discriminate.
  - apply (bool_decide_unpack _); reflexivity.
Defined.

(** ** Data model *)

(** Addresses of heap blocks; a C pointer is [None] (NULL) or an address. *)
Abbreviation addr := positive.
Abbreviation ptr := (option positive).
Abbreviation NULL := (@None positive).

(** A callback [void ( * )(UA_ByteString *, UA_ByteString * )], identified by a
    number; [None] is the NULL function pointer. *)
Abbreviation callback_t := (option nat).

(** [UA_BrokerWriterGroupTransportDataType], the two members the plugin reads. *)
Record UA_BrokerWriterGroupTransportDataType := {
  queueName : string;
  requestedDeliveryGuarantee : Z
}.

(** [UA_ExtensionObject].  [encoding] is one of the five values of
    [UA_ExtensionObjectEncoding]; a decoded object carries a value whose data
    type either is [UA_TYPES_BROKERWRITERGROUPTRANSPORTDATATYPE] or is not. *)
Inductive UA_ExtensionObjectEncoding :=
| UA_EXTENSIONOBJECT_ENCODED_NOBODY
| UA_EXTENSIONOBJECT_ENCODED_BYTESTRING
| UA_EXTENSIONOBJECT_ENCODED_XML
| UA_EXTENSIONOBJECT_DECODED
| UA_EXTENSIONOBJECT_DECODED_NODELETE.

#[global] Instance UA_ExtensionObjectEncoding_eq_dec : EqDecision UA_ExtensionObjectEncoding.
Proof. solve_decision. Defined.

Inductive UA_DecodedContent :=
| DecodedBrokerWriterGroupTransport (data : UA_BrokerWriterGroupTransportDataType)
| DecodedOtherType.

Inductive UA_ExtensionObject :=
| ExtEncoded (body : string) (xml : bool)
| ExtNoBody
| ExtDecoded (content : UA_DecodedContent) (nodelete : bool).

Definition encoding (e : UA_ExtensionObject) : UA_ExtensionObjectEncoding :=
  match e with
  | ExtNoBody => UA_EXTENSIONOBJECT_ENCODED_NOBODY
  | ExtEncoded _ false => UA_EXTENSIONOBJECT_ENCODED_BYTESTRING
  | ExtEncoded _ true => UA_EXTENSIONOBJECT_ENCODED_XML
  | ExtDecoded _ false => UA_EXTENSIONOBJECT_DECODED
  | ExtDecoded _ true => UA_EXTENSIONOBJECT_DECODED_NODELETE
  end.

(** The test shared by [regist], [unregist] and [send]:
    [transportSettings != NULL && transportSettings->encoding ==
    UA_EXTENSIONOBJECT_DECODED && ...->typeIndex ==
    UA_TYPES_BROKERWRITERGROUPTRANSPORTDATATYPE], with the cast of
    [content.decoded.data] when it holds. *)
Definition brokerTransportSettings (transportSettings : option UA_ExtensionObject)
  : option UA_BrokerWriterGroupTransportDataType :=
  match transportSettings with
  | None => None
  | Some e =>
      if decide (encoding e = UA_EXTENSIONOBJECT_DECODED) then
        match e with
        | ExtDecoded (DecodedBrokerWriterGroupTransport data) _ => Some data
        | _ => None
        end
      else None
  end.

Section QoS.
Context `{!HeaderConstants}.

(** [UA_uaQos_toMqttQos]: the second argument is the value [*qos] holds on
    entry, the second component of the result the value it holds on return. *)
Definition UA_uaQos_toMqttQos (uaQos : Z) (qos : Z) : Z * Z :=
  let qos' :=
    if decide (uaQos = UA_BROKERTRANSPORTQUALITYOFSERVICE_BESTEFFORT) then 0
    else if decide (uaQos = UA_BROKERTRANSPORTQUALITYOFSERVICE_ATLEASTONCE) then 1
    else if decide (uaQos = UA_BROKERTRANSPORTQUALITYOFSERVICE_ATMOSTONCE) then 2
    else qos in
  (UA_STATUSCODE_GOOD, qos').

End QoS.

(** ** Configuration *)

Record UA_NetworkAddressUrlDataType := {
  networkInterface : string;
  url : string
}.

(** [UA_Variant], by what [UA_Variant_hasScalarType] can tell about it: a
    scalar of one of the three data types [open] asks for, or anything else
    (empty, an array, a scalar of another type). *)
Inductive UA_Variant :=
| VariantUInt32 (v : Z)
| VariantString (s : string)
| VariantNetworkAddressUrl (a : UA_NetworkAddressUrlDataType)
| VariantOther.

Record UA_QualifiedName := {
  namespaceIndex : Z;
  name : string
}.

Record UA_KeyValuePair := {
  key : UA_QualifiedName;
  value : UA_Variant
}.

(** [UA_PubSubConnectionConfig]: the members [open] reads;
    [connectionPropertiesSize] is the length of the list. *)
Record UA_PubSubConnectionConfig := {
  config_address : UA_Variant;
  connectionProperties : list UA_KeyValuePair
}.

(** ** Channel objects *)

(** What the [UA_String *] in [mqttClientId] points to.  [open] stores one of
    two addresses there: that of its automatic variable [mqttClientId] ("set
    default values"), or [value.data] of a connection property, a string of
    the caller's configuration whose content is [s]. *)
Inductive UA_String_ptr :=
| LocalOfOpen
| DataOfProperty (s : string).

(** When a read through such a pointer takes place: while the call of [open]
    that stored it is running (as the read of [connectMqtt], which [open]
    calls), or after that call has returned. *)
Inductive read_time := DuringOpen | AfterOpen.

(** The string a read finds; [None] is undefined behaviour.  The automatic
    variable is initialised with [UA_STRING("open62541_pub")] and never
    assigned; its lifetime ends when [open] returns, and its address must not
    be read from then on.  The configuration is the caller's and outlives the
    call. *)
Definition UA_String_read (t : read_time) (p : UA_String_ptr) : option string :=
  match p, t with
  | DataOfProperty s, _ => Some s
  | LocalOfOpen, DuringOpen => Some "open62541_pub"
  | LocalOfOpen, AfterOpen => None
  end.

(** [UA_PubSubChannelDataMQTT].  [mqttClientId] is a [UA_String *]: [None]
    is NULL.  [connection] stands for the members the MQTT adapter fills
    in. *)
Record UA_PubSubChannelDataMQTT := {
  address : UA_NetworkAddressUrlDataType;
  mqttRecvBufferSize : Z;
  mqttSendBufferSize : Z;
  mqttSendBuffer : ptr;
  mqttRecvBuffer : ptr;
  mqttClientId : option UA_String_ptr;
  connection : ptr;
  callback : callback_t
}.

Definition set_mqttRecvBufferSize v d :=
  {| address := address d; mqttRecvBufferSize := v;
     mqttSendBufferSize := mqttSendBufferSize d; mqttSendBuffer := mqttSendBuffer d;
     mqttRecvBuffer := mqttRecvBuffer d; mqttClientId := mqttClientId d;
     connection := connection d; callback := callback d |}.

Definition set_mqttSendBufferSize v d :=
  {| address := address d; mqttRecvBufferSize := mqttRecvBufferSize d;
     mqttSendBufferSize := v; mqttSendBuffer := mqttSendBuffer d;
     mqttRecvBuffer := mqttRecvBuffer d; mqttClientId := mqttClientId d;
     connection := connection d; callback := callback d |}.

Definition set_mqttSendBuffer v d :=
  {| address := address d; mqttRecvBufferSize := mqttRecvBufferSize d;
     mqttSendBufferSize := mqttSendBufferSize d; mqttSendBuffer := v;
     mqttRecvBuffer := mqttRecvBuffer d; mqttClientId := mqttClientId d;
     connection := connection d; callback := callback d |}.

Definition set_mqttRecvBuffer v d :=
  {| address := address d; mqttRecvBufferSize := mqttRecvBufferSize d;
     mqttSendBufferSize := mqttSendBufferSize d; mqttSendBuffer := mqttSendBuffer d;
     mqttRecvBuffer := v; mqttClientId := mqttClientId d;
     connection := connection d; callback := callback d |}.

Definition set_mqttClientId v d :=
  {| address := address d; mqttRecvBufferSize := mqttRecvBufferSize d;
     mqttSendBufferSize := mqttSendBufferSize d; mqttSendBuffer := mqttSendBuffer d;
     mqttRecvBuffer := mqttRecvBuffer d; mqttClientId := v;
     connection := connection d; callback := callback d |}.

Definition set_connection v d :=
  {| address := address d; mqttRecvBufferSize := mqttRecvBufferSize d;
     mqttSendBufferSize := mqttSendBufferSize d; mqttSendBuffer := mqttSendBuffer d;
     mqttRecvBuffer := mqttRecvBuffer d; mqttClientId := mqttClientId d;
     connection := v; callback := callback d |}.

Definition set_callback v d :=
  {| address := address d; mqttRecvBufferSize := mqttRecvBufferSize d;
     mqttSendBufferSize := mqttSendBufferSize d; mqttSendBuffer := mqttSendBuffer d;
     mqttRecvBuffer := mqttRecvBuffer d; mqttClientId := mqttClientId d;
     connection := connection d; callback := v |}.

(** [UA_PubSubChannel]: [state] and [handle] (a [void *]). *)
Record UA_PubSubChannel := {
  state : UA_PubSubChannelState;
  handle : ptr
}.

Definition set_state v c := {| state := v; handle := handle c |}.
Definition set_handle v c := {| state := state c; handle := v |}.

(** ** Heap and calls to the MQTT adapter *)

Inductive block :=
| BlockChannelData (d : UA_PubSubChannelDataMQTT)
| BlockChannel (c : UA_PubSubChannel)
| BlockBytes (size : Z)
| BlockConnection.

(** One entry per call of a function of [mqtt/ua_mqtt_adapter.h], with the
    arguments passed. *)
Inductive adapter_call :=
| CallConnect (channelData : addr)
| CallDisconnect (channelData : addr)
| CallSubscribe (channelData : addr) (topic : string) (qos : Z)
| CallUnSubscribe (channelData : addr) (topic : string)
| CallPublish (channelData : addr) (topic : string) (buf : string) (qos : Z)
| CallYield (channelData : addr) (timeout : Z).

(** [heap]: the live allocations; [calls]: the adapter calls made so far,
    latest first. *)
Record world := {
  heap : gmap positive block;
  calls : list adapter_call
}.

Definition set_heap (f : gmap positive block → gmap positive block) (w : world) : world :=
  {| heap := f (heap w); calls := calls w |}.

(** Computations on the world; [None] is undefined behaviour of the C code
    (a dereference or [free] of an invalid pointer). *)
Definition M (A : Type) : Type := world → option (A * world).

#[global] Instance M_ret : MRet M := λ A a w, Some (a, w).
#[global] Instance M_bind : MBind M := λ A B f m w,
  match m w with
  | Some (a, w') => f a w'
  | None => None
  end.

(** [UA_calloc]: [ok] tells whether the allocation succeeds; the new block
    is zero-filled, [zero] is its content read at the allocated type. *)
Definition UA_calloc (ok : bool) (zero : block) : M ptr := λ w,
  if ok then
    let l := fresh (dom (heap w)) in
    Some (Some l, set_heap (insert l zero) w)
  else Some (NULL, w).

(** [UA_free]: nothing on NULL, undefined on an address that is not live. *)
Definition UA_free (p : ptr) : M unit := λ w,
  match p with
  | None => Some (tt, w)
  | Some l =>
      match heap w !! l with
      | Some _ => Some (tt, set_heap (delete l) w)
      | None => None
      end
  end.

Definition load_channel (p : ptr) : M UA_PubSubChannel := λ w,
  match p ≫= (λ l, heap w !! l) with
  | Some (BlockChannel c) => Some (c, w)
  | _ => None
  end.

Definition store_channel (p : ptr) (c : UA_PubSubChannel) : M unit := λ w,
  match p with
  | Some l =>
      match heap w !! l with
      | Some (BlockChannel _) => Some (tt, set_heap (insert l (BlockChannel c)) w)
      | _ => None
      end
  | None => None
  end.

Definition load_data (p : ptr) : M UA_PubSubChannelDataMQTT := λ w,
  match p ≫= (λ l, heap w !! l) with
  | Some (BlockChannelData d) => Some (d, w)
  | _ => None
  end.

Definition store_data (p : ptr) (d : UA_PubSubChannelDataMQTT) : M unit := λ w,
  match p with
  | Some l =>
      match heap w !! l with
      | Some (BlockChannelData _) => Some (tt, set_heap (insert l (BlockChannelData d)) w)
      | _ => None
      end
  | None => None
  end.

Definition record_call (c : adapter_call) : M unit := λ w,
  Some (tt, {| heap := heap w; calls := c :: calls w |}).

(** [p->f] and [p->f = v] on a channel-data pointer. *)
Definition data_get {A} (p : ptr) (f : UA_PubSubChannelDataMQTT → A) : M A :=
  d ← load_data p; mret (f d).

Definition data_set (p : ptr) (upd : UA_PubSubChannelDataMQTT → UA_PubSubChannelDataMQTT)
  : M unit :=
  d ← load_data p; store_data p (upd d).

Definition channel_get {A} (p : ptr) (f : UA_PubSubChannel → A) : M A :=
  c ← load_channel p; mret (f c).

Definition channel_set (p : ptr) (upd : UA_PubSubChannel → UA_PubSubChannel) : M unit :=
  c ← load_channel p; store_channel p (upd c).

(** ** The MQTT adapter

    [connectMqtt], [disconnectMqtt], [subscribeMqtt], [unSubscribeMqtt],
    [publishMqtt] and [yieldMqtt] are declared in [mqtt/ua_mqtt_adapter.h] and
    implemented in [ua_mqtt_adapter.c], which is not among the sources.  Each
    is modelled as a primitive that reads the channel data it is given,
    records its call and returns the status the broker library answers, which
    is an argument. *)

(** The channel data a primitive is called on: undefined unless the pointer
    refers to live channel data. *)
Definition adapter_addr (channelData : ptr) : M addr := λ w,
  match channelData with
  | Some l =>
      match heap w !! l with
      | Some (BlockChannelData _) => Some (l, w)
      | _ => None
      end
  | None => None
  end.

Section Adapter.
Context `{!HeaderConstants}.

(** Modelled from the spec: [connectMqtt] is not among the sources.  [open]
    "establishes the transport connection" through it, and the channel owns
    "its buffers and connection handle": the connection is a block of its
    own, referenced from the channel data.  [answer.1] is the status
    returned; the connection is acquired when the status is good, and may
    have been acquired ([answer.2]) when it is not, which is why [open]
    disconnects after a failed connect. *)
Definition connectMqtt (channelData : ptr) (answer : Z * bool) : M Z :=
  l ← adapter_addr channelData;
  record_call (CallConnect l);;
  (if decide (answer.1 = UA_STATUSCODE_GOOD ∨ answer.2 = true) then
     c ← UA_calloc true BlockConnection;
     data_set channelData (set_connection c)
   else mret tt);;
  mret answer.1.

(** Modelled from the spec: how [disconnectMqtt] gives up a buffer of the
    channel data.  [close] "must be safe to invoke from any state": a pointer
    that refers to no live buffer is left alone. *)
Definition release_buffer (b : ptr) : M unit := λ w,
  match b with
  | Some l =>
      match heap w !! l with
      | Some (BlockBytes _) => Some (tt, set_heap (delete l) w)
      | _ => Some (tt, w)
      end
  | None => Some (tt, w)
  end.

(** Modelled from the spec: [disconnectMqtt] is not among the sources.
    "[close] always succeeds, releases the connection and both buffers", and
    the call of [disconnectMqtt] is all that [close] does with them; buffers
    are "released exactly once, on close or on open-failure rollback", and
    after a failed connect [open] frees both buffer pointers itself once it
    has disconnected.  So the primitive releases the connection and the two
    buffers of the channel data and sets the three pointers to NULL. *)
Definition disconnectMqtt (channelData : ptr) : M Z :=
  l ← adapter_addr channelData;
  record_call (CallDisconnect l);;
  c ← data_get channelData connection;
  UA_free c;;
  data_set channelData (set_connection NULL);;
  recvBuffer ← data_get channelData mqttRecvBuffer;
  release_buffer recvBuffer;;
  data_set channelData (set_mqttRecvBuffer NULL);;
  sendBuffer ← data_get channelData mqttSendBuffer;
  release_buffer sendBuffer;;
  data_set channelData (set_mqttSendBuffer NULL);;
  mret UA_STATUSCODE_GOOD.

(** Modelled from the spec: [subscribeMqtt] is not among the sources; it is
    the "subscribe" primitive, called with the topic and the QoS level. *)
Definition subscribeMqtt (channelData : ptr) (topic : string) (qos : Z) (answer : Z) : M Z :=
  l ← adapter_addr channelData;
  record_call (CallSubscribe l topic qos);;
  mret answer.

(** Modelled from the spec: [unSubscribeMqtt] is not among the sources; it is
    the "unsubscribe" primitive, called with the topic. *)
Definition unSubscribeMqtt (channelData : ptr) (topic : string) (answer : Z) : M Z :=
  l ← adapter_addr channelData;
  record_call (CallUnSubscribe l topic);;
  mret answer.

(** Modelled from the spec: [publishMqtt] is not among the sources; it is the
    "publish" primitive, called with the topic, the payload and the QoS
    level. *)
Definition publishMqtt (channelData : ptr) (topic : string) (buf : string) (qos : Z)
    (answer : Z) : M Z :=
  l ← adapter_addr channelData;
  record_call (CallPublish l topic buf qos);;
  mret answer.

(** Modelled from the spec: [yieldMqtt] is not among the sources; it is the
    "pump" primitive, which "pumps pending inbound/outbound transport
    activity for up to [timeout]". *)
Definition yieldMqtt (channelData : ptr) (timeout : Z) (answer : Z) : M Z :=
  l ← adapter_addr channelData;
  record_call (CallYield l timeout);;
  mret answer.

End Adapter.

(** ** The channel functions of [ua_network_pubsub_mqtt.c] *)

(** What the outside world answers during one [open]: whether each of the
    four [UA_calloc] calls succeeds and the answer of [connectMqtt]. *)
Record open_answers := {
  calloc_channelData_ok : bool;
  calloc_newChannel_ok : bool;
  calloc_recvBuffer_ok : bool;
  calloc_sendBuffer_ok : bool;
  connect_answer : Z * bool
}.

Section Channel.
Context `{!HeaderConstants}.

Definition zero_channelData : UA_PubSubChannelDataMQTT :=
  {| address := {| networkInterface := ""; url := "" |};
     mqttRecvBufferSize := 0; mqttSendBufferSize := 0;
     mqttSendBuffer := NULL; mqttRecvBuffer := NULL; mqttClientId := None;
     connection := NULL; callback := None |}.

Definition zero_channel : UA_PubSubChannel :=
  {| state := UA_PUBSUB_CHANNEL_zero; handle := NULL |}.

(** The compound literal of "set default values": its sixth member is
    [&mqttClientId], the address of the automatic variable declared on the
    line before. *)
Definition default_channelData (address : UA_NetworkAddressUrlDataType)
  : UA_PubSubChannelDataMQTT :=
  {| address := address;
     mqttRecvBufferSize := 2000; mqttSendBufferSize := 2000;
     mqttSendBuffer := NULL; mqttRecvBuffer := NULL;
     mqttClientId := Some LocalOfOpen;
     connection := NULL; callback := None |}.

(** One iteration of the loop over [connectionProperties]. *)
Definition open_property (d : UA_PubSubChannelDataMQTT) (kv : UA_KeyValuePair)
  : UA_PubSubChannelDataMQTT :=
  if decide (name (key kv) = "sendBufferSize") then
    match value kv with
    | VariantUInt32 v => set_mqttSendBufferSize v d
    | _ => d
    end
  else if decide (name (key kv) = "recvBufferSize") then
    match value kv with
    | VariantUInt32 v => set_mqttRecvBufferSize v d
    | _ => d
    end
  else if decide (name (key kv) = "mqttClientId") then
    match value kv with
    | VariantString s => set_mqttClientId (Some (DataOfProperty s)) d
    | _ => d
    end
  else d.

(** [open] from "link channel and internal channel data" on. *)
Definition open_connect (a : open_answers) (channelDataMQTT newChannel : ptr) : M ptr :=
  channel_set newChannel (set_handle channelDataMQTT);;
  ret ← connectMqtt channelDataMQTT (connect_answer a);
  if decide (ret ≠ UA_STATUSCODE_GOOD) then
    disconnectMqtt channelDataMQTT;;
    sendBuffer ← data_get channelDataMQTT mqttSendBuffer;
    UA_free sendBuffer;;
    recvBuffer ← data_get channelDataMQTT mqttRecvBuffer;
    UA_free recvBuffer;;
    UA_free channelDataMQTT;;
    UA_free newChannel;;
    mret NULL
  else
    channel_set newChannel (set_state UA_PUBSUB_CHANNEL_RDY);;
    mret newChannel.

(** [open] from "Allocate memory for mqtt send buffer" on. *)
Definition open_sendBuffer (a : open_answers) (channelDataMQTT newChannel : ptr) : M ptr :=
  sendSize ← data_get channelDataMQTT mqttSendBufferSize;
  if decide (0 < sendSize) then
    b ← UA_calloc (calloc_sendBuffer_ok a) (BlockBytes sendSize);
    data_set channelDataMQTT (set_mqttSendBuffer b);;
    if decide (b = NULL) then
      recvSize ← data_get channelDataMQTT mqttRecvBufferSize;
      (if decide (0 < recvSize) then
         recvBuffer ← data_get channelDataMQTT mqttRecvBuffer;
         UA_free recvBuffer
       else mret tt);;
      UA_free channelDataMQTT;;
      UA_free newChannel;;
      mret NULL
    else open_connect a channelDataMQTT newChannel
  else open_connect a channelDataMQTT newChannel.

(** [open] from "Allocate memory for mqtt receive buffer" on. *)
Definition open_recvBuffer (a : open_answers) (channelDataMQTT newChannel : ptr) : M ptr :=
  recvSize ← data_get channelDataMQTT mqttRecvBufferSize;
  if decide (0 < recvSize) then
    b ← UA_calloc (calloc_recvBuffer_ok a) (BlockBytes recvSize);
    data_set channelDataMQTT (set_mqttRecvBuffer b);;
    if decide (b = NULL) then
      UA_free channelDataMQTT;;
      UA_free newChannel;;
      mret NULL
    else open_sendBuffer a channelDataMQTT newChannel
  else open_sendBuffer a channelDataMQTT newChannel.

(** [UA_PubSubChannelMQTT_open]; the result is the channel or NULL. *)
Definition UA_PubSubChannelMQTT_open (a : open_answers)
    (connectionConfig : UA_PubSubConnectionConfig) : M ptr :=
  match config_address connectionConfig with
  | VariantNetworkAddressUrl address =>
      channelDataMQTT ← UA_calloc (calloc_channelData_ok a) (BlockChannelData zero_channelData);
      if decide (channelDataMQTT = NULL) then mret NULL
      else
        store_data channelDataMQTT (default_channelData address);;
        data_set channelDataMQTT
          (λ d, foldl open_property d (connectionProperties connectionConfig));;
        newChannel ← UA_calloc (calloc_newChannel_ok a) (BlockChannel zero_channel);
        if decide (newChannel = NULL) then
          UA_free channelDataMQTT;;
          mret NULL
        else open_recvBuffer a channelDataMQTT newChannel
  | _ => mret NULL
  end.

(** [UA_PubSubChannelMQTT_regist]; [answer] is what [subscribeMqtt] returns. *)
Definition UA_PubSubChannelMQTT_regist (answer : Z) (channel : ptr)
    (transportSettings : option UA_ExtensionObject) (callback : callback_t) : M Z :=
  st ← channel_get channel state;
  if decide (st ≠ UA_PUBSUB_CHANNEL_RDY) then mret UA_STATUSCODE_BADCONNECTIONCLOSED
  else
    channelDataMQTT ← channel_get channel handle;
    data_set channelDataMQTT (set_callback callback);;
    match brokerTransportSettings transportSettings with
    | Some brokerTransportSettings =>
        let qos :=
          (UA_uaQos_toMqttQos (requestedDeliveryGuarantee brokerTransportSettings) 0).2 in
        subscribeMqtt channelDataMQTT (queueName brokerTransportSettings) qos answer
    | None => mret UA_STATUSCODE_BADARGUMENTSMISSING
    end.

(** [UA_PubSubChannelMQTT_unregist]; [answer] is what [unSubscribeMqtt]
    returns. *)
Definition UA_PubSubChannelMQTT_unregist (answer : Z) (channel : ptr)
    (transportSettings : option UA_ExtensionObject) : M Z :=
  st ← channel_get channel state;
  if decide (st ≠ UA_PUBSUB_CHANNEL_RDY) then mret UA_STATUSCODE_BADCONNECTIONCLOSED
  else
    channelDataMQTT ← channel_get channel handle;
    match brokerTransportSettings transportSettings with
    | Some brokerTransportSettings =>
        unSubscribeMqtt channelDataMQTT (queueName brokerTransportSettings) answer
    | None => mret UA_STATUSCODE_BADARGUMENTSMISSING
    end.

(** [UA_PubSubChannelMQTT_send]; [answer] is what [publishMqtt] returns. *)
Definition UA_PubSubChannelMQTT_send (answer : Z) (channel : ptr)
    (transportSettings : option UA_ExtensionObject) (buf : string) : M Z :=
  st ← channel_get channel state;
  if decide (st ≠ UA_PUBSUB_CHANNEL_RDY) then mret UA_STATUSCODE_BADCONNECTIONCLOSED
  else
    channelDataMQTT ← channel_get channel handle;
    let ret := UA_STATUSCODE_GOOD in
    let qos := 0 in
    match brokerTransportSettings transportSettings with
    | Some brokerTransportSettings =>
        let qos :=
          (UA_uaQos_toMqttQos (requestedDeliveryGuarantee brokerTransportSettings) qos).2 in
        let topic := queueName brokerTransportSettings in
        ret ← publishMqtt channelDataMQTT topic buf qos answer;
        (if decide (ret ≠ 0) then channel_set channel (set_state UA_PUBSUB_CHANNEL_ERROR)
         else mret tt);;
        mret ret
    | None => mret ret
    end.

(** [UA_PubSubChannelMQTT_close]. *)
Definition UA_PubSubChannelMQTT_close (channel : ptr) : M Z :=
  st ← channel_get channel state;
  if decide (st = UA_PUBSUB_CHANNEL_CLOSED) then mret UA_STATUSCODE_GOOD
  else
    channelDataMQTT ← channel_get channel handle;
    disconnectMqtt channelDataMQTT;;
    UA_free channelDataMQTT;;
    UA_free channel;;
    mret UA_STATUSCODE_GOOD.

(** [UA_PubSubChannelMQTT_yield]; [answer] is what [yieldMqtt] returns. *)
Definition UA_PubSubChannelMQTT_yield (answer : Z) (channel : ptr) (timeout : Z) : M Z :=
  let ret := UA_STATUSCODE_BADINVALIDARGUMENT in
  if decide (channel = NULL) then mret ret
  else
    st ← channel_get channel state;
    if decide (st = UA_PUBSUB_CHANNEL_ERROR) then mret UA_STATUSCODE_BADINTERNALERROR
    else
      channelDataMQTT ← channel_get channel handle;
      ret ← yieldMqtt channelDataMQTT timeout answer;
      if decide (ret ≠ UA_STATUSCODE_GOOD) then
        channel_set channel (set_state UA_PUBSUB_CHANNEL_ERROR);;
        mret ret
      else mret ret.

(** [TransportLayerMQTT_addChannel]: [open], then the five function pointers
    and [connectionConfig] are stored in the channel (members that no function
    of the plugin reads back). *)
Definition TransportLayerMQTT_addChannel (a : open_answers)
    (connectionConfig : UA_PubSubConnectionConfig) : M ptr :=
  UA_PubSubChannelMQTT_open a connectionConfig.

End Channel.

(** ** Channel operations in sequence *)

(** One call on a channel, with the answer of the adapter where the function
    consults it. *)
Inductive channel_op :=
| OpRegist (transportSettings : option UA_ExtensionObject) (callback : callback_t) (answer : Z)
| OpUnregist (transportSettings : option UA_ExtensionObject) (answer : Z)
| OpSend (transportSettings : option UA_ExtensionObject) (buf : string) (answer : Z)
| OpYield (timeout : Z) (answer : Z)
| OpClose.

Section Run.
Context `{!HeaderConstants}.

Definition step (channel : ptr) (op : channel_op) : M Z :=
  match op with
  | OpRegist ts cb answer => UA_PubSubChannelMQTT_regist answer channel ts cb
  | OpUnregist ts answer => UA_PubSubChannelMQTT_unregist answer channel ts
  | OpSend ts buf answer => UA_PubSubChannelMQTT_send answer channel ts buf
  | OpYield timeout answer => UA_PubSubChannelMQTT_yield answer channel timeout
  | OpClose => UA_PubSubChannelMQTT_close channel
  end.

Fixpoint run (channel : ptr) (ops : list channel_op) : M (list Z) :=
  match ops with
  | [] => mret []
  | op :: ops =>
      r ← step channel op;
      rs ← run channel ops;
      mret (r :: rs)
  end.

(** [send] or [yield] reporting a failure of the transport: the adapter was
    called and its answer, which is not [UA_STATUSCODE_GOOD], is returned. *)
Definition transport_failure (op : channel_op) (r : Z) : Prop :=
  match op with
  | OpSend ts _ answer =>
      is_Some (brokerTransportSettings ts) ∧ answer ≠ UA_STATUSCODE_GOOD ∧ r = answer
  | OpYield _ answer => answer ≠ UA_STATUSCODE_GOOD ∧ r = answer
  | _ => False
  end.

End Run.

(** ** Predicates on worlds *)

(** The state of the channel a pointer refers to, if it refers to one. *)
Definition channel_state (w : world) (channel : ptr) : option UA_PubSubChannelState :=
  match channel ≫= (λ l, heap w !! l) with
  | Some (BlockChannel c) => Some (state c)
  | _ => None
  end.

(** [p] is a channel [c] whose handle [h] is channel data [d]. *)
Definition channel_at (w : world) (p h : addr) (c : UA_PubSubChannel)
    (d : UA_PubSubChannelDataMQTT) : Prop :=
  heap w !! p = Some (BlockChannel c) ∧ handle c = Some h ∧
  heap w !! h = Some (BlockChannelData d).

(** The connection of [d] is NULL or live. *)
Definition connection_ok (w : world) (d : UA_PubSubChannelDataMQTT) : Prop :=
  match connection d with
  | Some cn => heap w !! cn = Some BlockConnection
  | None => True
  end.

(** A buffer pointer as [open] leaves it: a live block of [size] bytes when
    [size] is positive, NULL otherwise. *)
Definition buffer_ok (w : world) (size : Z) (b : ptr) : Prop :=
  if decide (0 < size) then ∃ l, b = Some l ∧ heap w !! l = Some (BlockBytes size)
  else b = NULL.

(** The channel data [open] has built when the loop over the properties is
    done. *)
Definition resolved_config `{!HeaderConstants} (address : UA_NetworkAddressUrlDataType)
    (connectionConfig : UA_PubSubConnectionConfig) : UA_PubSubChannelDataMQTT :=
  foldl open_property (default_channelData address) (connectionProperties connectionConfig).

(** [d] has the address, the buffer sizes and the client identifier pointer
    of [d0]. *)
Definition same_config (d d0 : UA_PubSubChannelDataMQTT) : Prop :=
  address d = address d0 ∧
  mqttRecvBufferSize d = mqttRecvBufferSize d0 ∧
  mqttSendBufferSize d = mqttSendBufferSize d0 ∧
  mqttClientId d = mqttClientId d0.

(** The answers with which [open] gets as far as [connectMqtt]: the two
    structs are allocated, and so is each buffer that is asked for. *)
Definition reaches_connect (a : open_answers) (d0 : UA_PubSubChannelDataMQTT) : Prop :=
  calloc_channelData_ok a = true ∧ calloc_newChannel_ok a = true ∧
  (0 < mqttRecvBufferSize d0 → calloc_recvBuffer_ok a = true) ∧
  (0 < mqttSendBufferSize d0 → calloc_sendBuffer_ok a = true).

(** Settings that are absent (NULL), not decoded, or decoded but not of the
    broker writer-group transport type. *)
Definition settings_missing (transportSettings : option UA_ExtensionObject) : Prop :=
  match transportSettings with
  | None => True
  | Some e =>
      encoding e ≠ UA_EXTENSIONOBJECT_DECODED ∨
      ∃ nodelete, e = ExtDecoded DecodedOtherType nodelete
  end.

(** The blocks of [m] without the one [p] points to. *)
Definition release (p : ptr) (m : gmap positive block) : gmap positive block :=
  match p with
  | Some l => delete l m
  | None => m
  end.

(** No property of the configuration is named [k]. *)
Definition omits (k : string) (connectionConfig : UA_PubSubConnectionConfig) : Prop :=
  Forall (λ kv, name (key kv) ≠ k) (connectionProperties connectionConfig).

(** ** A concrete channel

    The configuration of an MQTT connection without properties, opened in the
    empty world with every allocation and the connect succeeding. *)
Definition sample_config : UA_PubSubConnectionConfig :=
  {| config_address :=
       VariantNetworkAddressUrl {| networkInterface := ""; url := "opc.mqtt://broker:1883" |};
     connectionProperties := [] |}.

Definition all_ok (connect : Z * bool) : open_answers :=
  {| calloc_channelData_ok := true; calloc_newChannel_ok := true;
     calloc_recvBuffer_ok := true; calloc_sendBuffer_ok := true;
     connect_answer := connect |}.

Definition empty_world : world := {| heap := ∅; calls := [] |}.

Definition sample_data : UA_PubSubChannelDataMQTT :=
  {| address := {| networkInterface := ""; url := "opc.mqtt://broker:1883" |};
     mqttRecvBufferSize := 2000; mqttSendBufferSize := 2000;
     mqttSendBuffer := Some 4%positive; mqttRecvBuffer := Some 3%positive;
     mqttClientId := Some LocalOfOpen;
     connection := Some 5%positive; callback := None |}.

Definition sample_channel : UA_PubSubChannel :=
  {| state := UA_PUBSUB_CHANNEL_RDY; handle := Some 1%positive |}.

(** The world [open] leaves: channel data at 1, channel at 2, receive buffer
    at 3, send buffer at 4, connection at 5. *)
Definition sample_world : world :=
  {| heap := <[5%positive := BlockConnection]>
             (<[4%positive := BlockBytes 2000]>
             (<[3%positive := BlockBytes 2000]>
             (<[2%positive := BlockChannel sample_channel]>
             (<[1%positive := BlockChannelData sample_data]> ∅))));
     calls := [CallConnect 1%positive] |}.

(** Settings for topic "t" with a given delivery guarantee. *)
Definition sample_settings (uaQos : Z) : option UA_ExtensionObject :=
  Some (ExtDecoded
          (DecodedBrokerWriterGroupTransport
             {| queueName := "t"; requestedDeliveryGuarantee := uaQos |})
          false).

(** ** The nodestore switch

    [examples/server_nodestore_switch.c] links a nodestore to namespace 1,
    adds three nodes, unlinks the nodestore, deletes the server and lists the
    nodes that are still in the nodestore. *)

Module NodestoreSwitch.

Record UA_NodeId := {
  nodeId_namespaceIndex : N;
  nodeId_identifier : string
}.

(** Modelled from the spec: the nodestore switch ([UA_Nodestore_Switch],
    [UA_Nodestore_Switch_setNodestore], the lookup by namespace index and the
    dispatch of node operations) is declared in
    [open62541/plugin/nodestore_switch.h]; its implementation and that of the
    server are not among the sources.  Per the spec the registry is a
    "mapping NamespaceIndex → BackendHandle, at most one entry per index; a
    distinguished default entry is used when no explicit mapping exists", and
    it "holds only a non-owning reference while linked". *)
Record UA_Nodestore_Switch := {
  defaultNodestore : option positive;
  nodestoreArray : gmap N positive
}.

(** The live nodestores with the nodes each holds, and the switch of the
    server that is running. *)
Record state := {
  nodestores : gmap positive (list UA_NodeId);
  switch : UA_Nodestore_Switch
}.

(** Modelled from the spec: "[setBackend(index, handleOrNone)]: installs,
    replaces, or removes the mapping for [index].  Replacing or removing never
    destroys the previous backend".  This is
    [UA_Nodestore_Switch_setNodestore], whose body is not among the sources. *)
Definition UA_Nodestore_Switch_setNodestore (index : N) (ns : option positive)
    (s : state) : state :=
  {| nodestores := nodestores s;
     switch :=
       {| defaultNodestore := defaultNodestore (switch s);
          nodestoreArray :=
            match ns with
            | Some h => <[index := h]> (nodestoreArray (switch s))
            | None => delete index (nodestoreArray (switch s))
            end |} |}.

(** Modelled from the spec: "[getBackend(index) -> handle]: returns the
    mapped backend, or the default backend if none is mapped". *)
Definition getBackend (index : N) (s : state) : option positive :=
  match nodestoreArray (switch s) !! index with
  | Some h => Some h
  | None => defaultNodestore (switch s)
  end.

(** Modelled from the spec: the [iterate] capability of a backend, here the
    list of the nodes it holds; [None] when the backend has been destroyed. *)
Definition iterate (ns : positive) (s : state) : option (list UA_NodeId) :=
  nodestores s !! ns.

(** Modelled from the spec: "[dispatch(op, nodeId)]: derives the namespace
    index from [nodeId], resolves the backend via [getBackend], forwards
    [op]", for the insertion of a node; [None] is [NotFound]. *)
Definition dispatch_insert (node : UA_NodeId) (s : state) : option state :=
  h ← getBackend (nodeId_namespaceIndex node) s;
  nodes ← nodestores s !! h;
  Some {| nodestores := <[h := nodes ++ [node]]> (nodestores s); switch := switch s |}.

(** Modelled from the spec: [UA_Nodestore_Default_Interface_new] creates a
    backend that its creator owns. *)
Definition UA_Nodestore_Default_Interface_new (s : state) : positive * state :=
  let h := fresh (dom (nodestores s)) in
  (h, {| nodestores := <[h := []]> (nodestores s); switch := switch s |}).

(** Modelled from the spec: a new server has a switch with a default
    nodestore and no other mapping. *)
Definition UA_Server_new (live : gmap positive (list UA_NodeId)) : state :=
  let h := fresh (dom live) in
  {| nodestores := <[h := []]> live;
     switch := {| defaultNodestore := Some h; nodestoreArray := ∅ |} |}.

(** Modelled from the spec: tearing the server down destroys the default
    nodestore and every nodestore that is still linked ("unlinked (required
    before the owning registry/server is torn down, to avoid the backend being
    destroyed along with it)").  What remains are the live nodestores. *)
Definition UA_Server_delete (s : state) : gmap positive (list UA_NodeId) :=
  filter (λ kv, Some kv.1 ≠ defaultNodestore (switch s) ∧
                kv.1 ∉ (map_to_list (nodestoreArray (switch s))).*2)
         (nodestores s).

(** [addVariableNode(server, nsIndex, name)]: the node id is
    [UA_NODEID_STRING(nsIndex, name)]; the status of
    [UA_Server_addVariableNode] is dropped. *)
Definition addVariableNode (nsIndex : N) (name : string) (s : state) : state :=
  let myIntegerNodeId := {| nodeId_namespaceIndex := nsIndex; nodeId_identifier := name |} in
  default s (dispatch_insert myIntegerNodeId s).

(** [main] up to [UA_Server_run]: the nodestore created for namespace 1 and
    the state in which the server runs. *)
Definition main_linked : positive * state :=
  let s := UA_Server_new ∅ in
  let '(ns1Nodestore, s) := UA_Nodestore_Default_Interface_new s in
  let s := UA_Nodestore_Switch_setNodestore 1 (Some ns1Nodestore) s in
  let s := addVariableNode 1 "TestNode1" s in
  let s := addVariableNode 1 "TestNode2" s in
  let s := addVariableNode 1 "TestNode3" s in
  (ns1Nodestore, s).

(** [main] from "Unlink nodestore for namespace 1" to the listing of the
    nodes in [ns1Nodestore]; the result is the list of node ids handed to
    [printNode]. *)
Definition main_listing : option (list UA_NodeId) :=
  let '(ns1Nodestore, s) := main_linked in
  let s := UA_Nodestore_Switch_setNodestore 1 None s in
  let live := UA_Server_delete s in
  live !! ns1Nodestore.

(** The state [main_linked] arrives at: the default nodestore 1, and
    nodestore 2 linked to namespace 1 with the three nodes. *)
Definition sample_state : state :=
  {| nodestores :=
       <[2%positive :=
           [ {| nodeId_namespaceIndex := 1; nodeId_identifier := "TestNode1" |};
             {| nodeId_namespaceIndex := 1; nodeId_identifier := "TestNode2" |};
             {| nodeId_namespaceIndex := 1; nodeId_identifier := "TestNode3" |} ]]>
         (<[1%positive := []]> ∅);
     switch := {| defaultNodestore := Some 1%positive;
                  nodestoreArray := <[1%N := 2%positive]> ∅ |} |}.

End NodestoreSwitch.

(** ** Predicates for the properties of the operations *)

(** A property the loop of [open] acts on: one of the three names, with a
    scalar of the type that branch of the loop asks for. *)
Definition acted_on (kv : UA_KeyValuePair) : Prop :=
  match value kv with
  | VariantUInt32 _ =>
      name (key kv) = "sendBufferSize" ∨ name (key kv) = "recvBufferSize"
  | VariantString _ => name (key kv) = "mqttClientId"
  | _ => False
  end.

#[global] Instance acted_on_dec kv : Decision (acted_on kv).
Proof. unfold acted_on. destruct (value kv); apply _. Defined.

(** The configuration [connectionConfig] with another property list. *)
Definition with_properties (connectionConfig : UA_PubSubConnectionConfig)
    (properties : list UA_KeyValuePair) : UA_PubSubConnectionConfig :=
  {| config_address := config_address connectionConfig;
     connectionProperties := properties |}.

(** A subscribe or publish call carries a QoS level of MQTT: 0, 1 or 2. *)
Definition qos_in_range (c : adapter_call) : Prop :=
  match c with
  | CallSubscribe _ _ qos | CallPublish _ _ _ qos => 0 ≤ qos ≤ 2
  | _ => True
  end.

Definition is_close (op : channel_op) : Prop :=
  match op with
  | OpClose => True
  | _ => False
  end.

(** What an operation other than [close] returns on a channel in the Error
    state. *)
Definition error_status `{!HeaderConstants} (op : channel_op) : Z :=
  match op with
  | OpYield _ _ => UA_STATUSCODE_BADINTERNALERROR
  | _ => UA_STATUSCODE_BADCONNECTIONCLOSED
  end.

(** [d'] is [d] up to the recorded callback. *)
Definition same_but_callback (d d' : UA_PubSubChannelDataMQTT) : Prop :=
  d' = set_callback (callback d') d.

(** A connection property, and a property list that names each of the three
    properties [open] knows. *)
Definition property (k : string) (v : UA_Variant) : UA_KeyValuePair :=
  {| key := {| namespaceIndex := 0; name := k |}; value := v |}.

Definition full_properties : list UA_KeyValuePair :=
  [ property "sendBufferSize" (VariantUInt32 10);
    property "recvBufferSize" (VariantUInt32 12);
    property "mqttClientId" (VariantString "c1") ].

(** A configuration that asks for no buffers. *)
Definition zero_size_config : UA_PubSubConnectionConfig :=
  {| config_address := config_address sample_config;
     connectionProperties :=
       [ {| key := {| namespaceIndex := 0; name := "sendBufferSize" |};
            value := VariantUInt32 0 |};
         {| key := {| namespaceIndex := 0; name := "recvBufferSize" |};
            value := VariantUInt32 0 |} ] |}.

(** The sample channel after a failed [send]. *)
Definition sample_world_error : world :=
  {| heap := <[2%positive :=
                 BlockChannel (set_state UA_PUBSUB_CHANNEL_ERROR sample_channel)]>
               (heap sample_world);
     calls := calls sample_world |}.

(** ** Basic facts *)

Lemma sample_world_opened :
  UA_PubSubChannelMQTT_open (all_ok (UA_STATUSCODE_GOOD, false)) sample_config empty_world
  = Some (Some 2%positive, sample_world).
Proof. vm_compute. reflexivity. Qed.

(** *** The state monad *)

Lemma bind_eval {A B} (m : M A) (f : A → M B) w a w' :
  m w = Some (a, w') → (m ≫= f) w = f a w'.
Proof. intros E. unfold mbind, M_bind. by rewrite E. Qed.

Lemma bind_Some {A B} (m : M A) (f : A → M B) w r :
  (m ≫= f) w = Some r → ∃ a w', m w = Some (a, w') ∧ f a w' = Some r.
Proof.
  unfold mbind, M_bind. destruct (m w) as [[a w']|]; [eauto | discriminate].
Qed.

Lemma load_channel_eval w l c :
  heap w !! l = Some (BlockChannel c) → load_channel (Some l) w = Some (c, w).
Proof. intros E. unfold load_channel. simpl. by rewrite E. Qed.

Lemma load_data_eval w l d :
  heap w !! l = Some (BlockChannelData d) → load_data (Some l) w = Some (d, w).
Proof. intros E. unfold load_data. simpl. by rewrite E. Qed.

Lemma channel_get_eval {A} (f : UA_PubSubChannel → A) w l c :
  heap w !! l = Some (BlockChannel c) → channel_get (Some l) f w = Some (f c, w).
Proof. intros E. unfold channel_get. by rewrite (bind_eval _ _ _ _ _ (load_channel_eval _ _ _ E)). Qed.

Lemma data_get_eval {A} (f : UA_PubSubChannelDataMQTT → A) w l d :
  heap w !! l = Some (BlockChannelData d) → data_get (Some l) f w = Some (f d, w).
Proof. intros E. unfold data_get. by rewrite (bind_eval _ _ _ _ _ (load_data_eval _ _ _ E)). Qed.

Lemma channel_set_eval upd w l c :
  heap w !! l = Some (BlockChannel c) →
  channel_set (Some l) upd w = Some (tt, set_heap (insert l (BlockChannel (upd c))) w).
Proof.
  intros E. unfold channel_set.
  rewrite (bind_eval _ _ _ _ _ (load_channel_eval _ _ _ E)).
  unfold store_channel. by rewrite E.
Qed.

Lemma data_set_eval upd w l d :
  heap w !! l = Some (BlockChannelData d) →
  data_set (Some l) upd w = Some (tt, set_heap (insert l (BlockChannelData (upd d))) w).
Proof.
  intros E. unfold data_set.
  rewrite (bind_eval _ _ _ _ _ (load_data_eval _ _ _ E)).
  unfold store_data. by rewrite E.
Qed.

Lemma adapter_addr_eval w l d :
  heap w !! l = Some (BlockChannelData d) → adapter_addr (Some l) w = Some (l, w).
Proof. intros E. unfold adapter_addr. by rewrite E. Qed.

Lemma UA_free_eval w l b :
  heap w !! l = Some b → UA_free (Some l) w = Some (tt, set_heap (delete l) w).
Proof. intros E. unfold UA_free. by rewrite E. Qed.

Lemma UA_free_NULL w : UA_free NULL w = Some (tt, w).
Proof. reflexivity. Qed.

Lemma release_buffer_eval w l size :
  heap w !! l = Some (BlockBytes size) →
  release_buffer (Some l) w = Some (tt, set_heap (delete l) w).
Proof. intros E. unfold release_buffer. by rewrite E. Qed.

Lemma release_buffer_NULL w : release_buffer NULL w = Some (tt, w).
Proof. reflexivity. Qed.

Lemma release_buffer_total b w :
  ∃ w', release_buffer b w = Some (tt, w') ∧ calls w' = calls w ∧
        ∀ i blk, heap w !! i = Some blk → (∀ size, blk ≠ BlockBytes size) →
                 heap w' !! i = Some blk.
Proof.
  unfold release_buffer. destruct b as [l|]; [|by eexists].
  destruct (heap w !! l) as [[d|c|size|]|] eqn:E; try by eexists.
  eexists. split; [done|]. split; [done|].
  intros i blk Hi Hb. simpl. rewrite lookup_delete_ne; [done|].
  intros <-. rewrite E in Hi. injection Hi as <-. by eapply Hb.
Qed.

Lemma settings_missing_spec ts :
  settings_missing ts ↔ brokerTransportSettings ts = None.
Proof.
  destruct ts as [e|]; simpl; [|done].
  destruct e as [body [|]| |[data|] [|]]; simpl; split; try done; eauto.
  all: intros [?|[? ?]]; done.
Qed.


Lemma UA_calloc_eval b w :
  UA_calloc true b w
  = Some (Some (fresh (dom (heap w))), set_heap (insert (fresh (dom (heap w))) b) w).
Proof. reflexivity. Qed.

Lemma UA_calloc_fail b w : UA_calloc false b w = Some (NULL, w).
Proof. reflexivity. Qed.

Lemma store_data_eval d' w l d :
  heap w !! l = Some (BlockChannelData d) →
  store_data (Some l) d' w = Some (tt, set_heap (insert l (BlockChannelData d')) w).
Proof. intros E. unfold store_data. by rewrite E. Qed.

Lemma record_call_eval c w :
  record_call c w = Some (tt, {| heap := heap w; calls := c :: calls w |}).
Proof. reflexivity. Qed.

Lemma mret_eval {A} (a : A) w : (mret a : M A) w = Some (a, w).
Proof. reflexivity. Qed.

Lemma fresh_addr_None (m : gmap positive block) : m !! fresh (dom m) = None.
Proof. apply not_elem_of_dom, is_fresh. Qed.

Lemma bind_bind {A B C} (m : M A) (f : A → M B) (g : B → M C) w :
  ((m ≫= f) ≫= g) w = (m ≫= (λ a, f a ≫= g)) w.
Proof. unfold mbind, M_bind. by destruct (m w) as [[a w']|]. Qed.

Lemma bind_mret {A B} (a : A) (f : A → M B) w : (mret a ≫= f) w = f a w.
Proof. reflexivity. Qed.

(** Lookups in a heap built by insertions and deletions. *)
Ltac map_lookup :=
  repeat first
    [ rewrite lookup_insert_eq
    | rewrite lookup_insert_ne by done
    | rewrite lookup_delete_ne by done ].

Ltac norm_world := cbn [heap calls set_heap].

Ltac norm_fields :=
  cbn [address mqttRecvBufferSize mqttSendBufferSize mqttSendBuffer mqttRecvBuffer
       mqttClientId connection callback state handle
       set_mqttRecvBufferSize set_mqttSendBufferSize set_mqttSendBuffer
       set_mqttRecvBuffer set_mqttClientId set_connection set_callback
       set_state set_handle].

Ltac heap_lookup :=
  norm_world; map_lookup; first [eassumption | reflexivity | done].

(** Evaluation of a program on a world, one primitive at a time. *)
Ltac mstep :=
  progress
    (rewrite ?bind_bind, ?bind_mret;
     try first
       [ erewrite bind_eval by (eapply channel_get_eval; heap_lookup)
       | erewrite bind_eval by (eapply data_get_eval; heap_lookup)
       | erewrite bind_eval by (eapply channel_set_eval; heap_lookup)
       | erewrite bind_eval by (eapply data_set_eval; heap_lookup)
       | erewrite bind_eval by (eapply store_data_eval; heap_lookup)
       | erewrite bind_eval by (eapply adapter_addr_eval; heap_lookup)
       | erewrite bind_eval by (eapply UA_free_eval; heap_lookup)
       | erewrite bind_eval by (apply UA_free_NULL)
       | erewrite bind_eval by (eapply release_buffer_eval; heap_lookup)
       | erewrite bind_eval by (apply release_buffer_NULL)
       | erewrite bind_eval by (apply record_call_eval)
       | erewrite bind_eval by (apply UA_calloc_fail)
       | rewrite decide_True by (first [done | intuition congruence])
       | rewrite decide_False by (first [done | intuition congruence]) ];
     cbv beta; norm_fields).

Ltac msteps := repeat mstep.

(** Keeps one copy of a disequality and adds its mirror image. *)
Ltac note_ne H :=
  lazymatch type of H with
  | ?a ≠ ?b =>
      first
        [ match goal with H' : b ≠ a |- _ => clear H end
        | pose proof (not_eq_sym H) ]
  end.

(** Names the address of the next allocation and records that it is new. *)
Ltac fresh_addr l :=
  rewrite ?bind_bind, ?bind_mret;
  erewrite bind_eval by (apply UA_calloc_eval);
  norm_world;
  match goal with
  | |- context [fresh (dom ?m)] =>
      let H := fresh "Hfresh" in
      pose proof (fresh_addr_None m) as H;
      generalize dependent (fresh (dom m)); intros l H;
      repeat (let Hne := fresh "Hne" in
              apply lookup_insert_None in H as [H Hne]; note_ne Hne)
  end.

(** Two heaps built from the same one by insertions and deletions at new
    addresses agree: they are compared address by address. *)
Ltac split_addr i :=
  repeat match goal with
         | Hf : _ !! ?l = None |- _ =>
             lazymatch goal with
             | _ : l ≠ i |- _ => fail
             | _ => destruct (decide (l = i)) as [->|]
             end
         end.

Ltac heap_eq :=
  norm_world; apply map_eq;
  let i := fresh "i" in
  intros i; split_addr i;
  repeat first
    [ rewrite lookup_delete_eq
    | rewrite lookup_delete_ne by done
    | rewrite lookup_insert_eq
    | rewrite lookup_insert_ne by done ];
  congruence.

(** *** Inversion of the primitives *)

Lemma mret_Some {A} (a b : A) w w' : (mret a : M A) w = Some (b, w') → a = b ∧ w' = w.
Proof. intros [= -> ->]. done. Qed.

Lemma load_channel_Some p w c w' :
  load_channel p w = Some (c, w') →
  w' = w ∧ ∃ l, p = Some l ∧ heap w !! l = Some (BlockChannel c).
Proof.
  unfold load_channel. destruct p as [l|]; simpl; [|done].
  destruct (heap w !! l) as [[| | |]|] eqn:E; try done. intros [= -> ->]. eauto.
Qed.

Lemma load_data_Some p w d w' :
  load_data p w = Some (d, w') →
  w' = w ∧ ∃ l, p = Some l ∧ heap w !! l = Some (BlockChannelData d).
Proof.
  unfold load_data. destruct p as [l|]; simpl; [|done].
  destruct (heap w !! l) as [[| | |]|] eqn:E; try done. intros [= -> ->]. eauto.
Qed.

Lemma channel_get_Some {A} (f : UA_PubSubChannel → A) p w x w' :
  channel_get p f w = Some (x, w') →
  w' = w ∧ ∃ l c, p = Some l ∧ heap w !! l = Some (BlockChannel c) ∧ x = f c.
Proof.
  unfold channel_get. intros (c & w1 & E1 & E2)%bind_Some.
  apply load_channel_Some in E1 as (-> & l & -> & E1).
  apply mret_Some in E2 as [<- ->]. eauto 6.
Qed.

Lemma data_get_Some {A} (f : UA_PubSubChannelDataMQTT → A) p w x w' :
  data_get p f w = Some (x, w') →
  w' = w ∧ ∃ l d, p = Some l ∧ heap w !! l = Some (BlockChannelData d) ∧ x = f d.
Proof.
  unfold data_get. intros (c & w1 & E1 & E2)%bind_Some.
  apply load_data_Some in E1 as (-> & l & -> & E1).
  apply mret_Some in E2 as [<- ->]. eauto 6.
Qed.

Lemma channel_set_Some upd p w x w' :
  channel_set p upd w = Some (x, w') →
  ∃ l c, p = Some l ∧ heap w !! l = Some (BlockChannel c) ∧
         w' = set_heap (insert l (BlockChannel (upd c))) w.
Proof.
  unfold channel_set. intros (c & w1 & E1 & E2)%bind_Some.
  apply load_channel_Some in E1 as (-> & l & -> & E1).
  unfold store_channel in E2. rewrite E1 in E2. injection E2 as _ <-. eauto.
Qed.

Lemma data_set_Some upd p w x w' :
  data_set p upd w = Some (x, w') →
  ∃ l d, p = Some l ∧ heap w !! l = Some (BlockChannelData d) ∧
         w' = set_heap (insert l (BlockChannelData (upd d))) w.
Proof.
  unfold data_set. intros (c & w1 & E1 & E2)%bind_Some.
  apply load_data_Some in E1 as (-> & l & -> & E1).
  unfold store_data in E2. rewrite E1 in E2. injection E2 as _ <-. eauto.
Qed.

Lemma adapter_addr_Some p w l w' :
  adapter_addr p w = Some (l, w') →
  w' = w ∧ p = Some l ∧ ∃ d, heap w !! l = Some (BlockChannelData d).
Proof.
  unfold adapter_addr. destruct p as [l'|]; [|done].
  destruct (heap w !! l') as [[| | |]|] eqn:E; try done. intros [= -> ->]. eauto.
Qed.

Lemma record_call_Some c w x w' :
  record_call c w = Some (x, w') → heap w' = heap w ∧ calls w' = c :: calls w.
Proof. intros [= _ <-]. done. Qed.

Lemma UA_free_Some p w x w' :
  UA_free p w = Some (x, w') →
  (p = NULL ∧ w' = w) ∨
  (∃ l, p = Some l ∧ is_Some (heap w !! l) ∧ w' = set_heap (delete l) w).
Proof.
  unfold UA_free. destruct p as [l|]; [|intros [= _ <-]; by left].
  destruct (heap w !! l) eqn:E; [|done]. intros [= _ <-]. right. eauto.
Qed.

Lemma release_buffer_Some b w x w' :
  release_buffer b w = Some (x, w') →
  w' = w ∨
  (∃ l size, b = Some l ∧ heap w !! l = Some (BlockBytes size) ∧
             w' = set_heap (delete l) w).
Proof.
  unfold release_buffer. destruct b as [l|]; [|intros [= _ <-]; by left].
  destruct (heap w !! l) as [[d|c|size|]|] eqn:E; intros [= _ <-]; eauto 6.
Qed.

(** Takes apart a hypothesis saying that a program has a result. *)
Ltac minv :=
  repeat match goal with
  | H : (_ ≫= _) _ = Some _ |- _ =>
      let a := fresh "a" in let w := fresh "w" in let E := fresh "E" in
      apply bind_Some in H as (a & w & E & H)
  | H : mret _ _ = Some _ |- _ => apply mret_Some in H as [? ?]
  | H : channel_get _ _ _ = Some _ |- _ =>
      apply channel_get_Some in H as (? & ? & ? & ? & ? & ?)
  | H : data_get _ _ _ = Some _ |- _ =>
      apply data_get_Some in H as (? & ? & ? & ? & ? & ?)
  | H : channel_set _ _ _ = Some _ |- _ =>
      apply channel_set_Some in H as (? & ? & ? & ? & ?)
  | H : data_set _ _ _ = Some _ |- _ =>
      apply data_set_Some in H as (? & ? & ? & ? & ?)
  | H : adapter_addr _ _ = Some _ |- _ =>
      apply adapter_addr_Some in H as (? & ? & ? & ?)
  | H : record_call _ _ = Some _ |- _ =>
      apply record_call_Some in H as (? & ?)
  | H : UA_free _ _ = Some _ |- _ =>
      apply UA_free_Some in H as [[? ?]|(? & ? & ? & ?)]
  | H : release_buffer _ _ = Some _ |- _ =>
      apply release_buffer_Some in H as [?|(? & ? & ? & ? & ?)]
  | H : (if decide _ then _ else _) _ = Some _ |- _ => case_decide
  | H : match brokerTransportSettings ?ts with _ => _ end _ = Some _ |- _ =>
      destruct (brokerTransportSettings ts) eqn:?
  | _ => progress simplify_eq
  end.

Ltac state_solve :=
  unfold channel_state; norm_world; cbn [mbind option_bind];
  repeat match goal with H : heap ?w = _ |- context [heap ?w] => rewrite H end;
  norm_world;
  repeat (rewrite lookup_insert || rewrite lookup_delete);
  repeat case_decide; simplify_eq;
  repeat match goal with
         | H : heap ?w !! ?l = _ |- context [heap ?w !! ?l] => rewrite H
         end;
  auto.

Section OpenAndSequences.

Context `{!HeaderConstants}.


Lemma open_property_fields props d :
  let d' := foldl open_property d props in
  address d' = address d ∧ mqttSendBuffer d' = mqttSendBuffer d ∧
  mqttRecvBuffer d' = mqttRecvBuffer d ∧ connection d' = connection d ∧
  callback d' = callback d.
Proof.
  revert d. induction props as [|kv props IH]; intros d; simpl; [done|].
  destruct (IH (open_property d kv)) as (-> & -> & -> & -> & ->).
  unfold open_property. repeat case_decide; by destruct (value kv).
Qed.

Lemma resolved_config_buffers address cfg :
  mqttRecvBuffer (resolved_config address cfg) = NULL ∧
  mqttSendBuffer (resolved_config address cfg) = NULL.
Proof.
  destruct (open_property_fields (connectionProperties cfg) (default_channelData address))
    as (_ & ? & ? & _). done.
Qed.

(** [open] up to the call of [connectMqtt], on every path that gets there. *)
Ltac open_prefix Ha H1 H2 H3 H4 :=
  unfold UA_PubSubChannelMQTT_open; rewrite Ha, H1, H2;
  (let l := fresh "l" in fresh_addr l); msteps;
  (let l := fresh "l" in fresh_addr l); msteps;
  unfold open_recvBuffer; msteps;
  (case_decide;
   [ rewrite H3 by done; (let l := fresh "l" in fresh_addr l); msteps | ]);
  unfold open_sendBuffer; msteps;
  (case_decide;
   [ rewrite H4 by done; (let l := fresh "l" in fresh_addr l); msteps | ]).

Lemma open_until_connect a cfg address w :
  config_address cfg = VariantNetworkAddressUrl address →
  reaches_connect a (resolved_config address cfg) →
  ∃ p h d w1,
    UA_PubSubChannelMQTT_open a cfg w = open_connect a (Some h) (Some p) w1 ∧
    heap w1 !! p = Some (BlockChannel zero_channel) ∧
    heap w1 !! h = Some (BlockChannelData d) ∧
    same_config d (resolved_config address cfg) ∧
    buffer_ok w1 (mqttRecvBufferSize d) (mqttRecvBuffer d) ∧
    buffer_ok w1 (mqttSendBufferSize d) (mqttSendBuffer d) ∧
    (∀ b, mqttRecvBuffer d = Some b ∨ mqttSendBuffer d = Some b → heap w !! b = None) ∧
    calls w1 = calls w.
Proof.
  intros Ha (H1 & H2 & H3 & H4).
  destruct (resolved_config_buffers address cfg) as [Hrb Hsb].
  unfold resolved_config in *.
  open_prefix Ha H1 H2 H3 H4.
  all: eexists _, _, _, _; split; [reflexivity|].
  all: unfold buffer_ok, same_config; norm_world.
  all: split; [by map_lookup|].
  all: split; [by map_lookup|].
  all: split; [done|].
  all: norm_fields; rewrite ?Hrb, ?Hsb; repeat case_decide; try done.
  all: split; [first [done | by eexists; (split; [reflexivity|]); map_lookup]|].
  all: split; [first [done | by eexists; (split; [reflexivity|]); map_lookup]|].
  all: split; [|done].
  all: intros b [?|?]; by simplify_eq.
Qed.

Lemma open_ready a cfg address w :
  config_address cfg = VariantNetworkAddressUrl address →
  let d0 := resolved_config address cfg in
  reaches_connect a d0 → (connect_answer a).1 = UA_STATUSCODE_GOOD →
  ∃ p h d cn w',
    UA_PubSubChannelMQTT_open a cfg w = Some (Some p, w') ∧
    calls w' = CallConnect h :: calls w ∧
    channel_at w' p h {| state := UA_PUBSUB_CHANNEL_RDY; handle := Some h |} d ∧
    same_config d d0 ∧
    buffer_ok w' (mqttRecvBufferSize d) (mqttRecvBuffer d) ∧
    buffer_ok w' (mqttSendBufferSize d) (mqttSendBuffer d) ∧
    connection d = Some cn ∧ heap w' !! cn = Some BlockConnection ∧
    callback d = None ∧
    heap w !! p = None ∧
    heap w ⊆ heap w'.
Proof.
  intros Ha d0 (H1 & H2 & H3 & H4) Hc.
  destruct (resolved_config_buffers address cfg) as [Hrb Hsb].
  destruct (open_property_fields (connectionProperties cfg) (default_channelData address))
    as (_ & _ & _ & _ & Hcb).
  fold (resolved_config address cfg) in Hcb.
  fold d0 in Hrb, Hsb, Hcb. unfold resolved_config in d0.
  open_prefix Ha H1 H2 H3 H4.
  all: unfold open_connect, connectMqtt; msteps.
  all: (let l := fresh "l" in fresh_addr l); msteps.
  all: rewrite mret_eval; eexists _, _, _, _, _; split; [reflexivity|].
  all: unfold channel_at, buffer_ok, same_config; norm_world; fold d0.
  all: split; [reflexivity|].
  all: split; [by map_lookup|].
  all: split; [done|].
  all: simpl; repeat case_decide; try lia.
  all: repeat (split;
    [first [done | by map_lookup
           | by eexists; (split; [reflexivity|]); map_lookup]|]).
  all: by repeat (apply insert_subseteq_r; [done|]).
Qed.


Lemma open_connect_failure a cfg address w :
  config_address cfg = VariantNetworkAddressUrl address →
  reaches_connect a (resolved_config address cfg) →
  (connect_answer a).1 ≠ UA_STATUSCODE_GOOD →
  ∃ p h d w1,
    UA_PubSubChannelMQTT_open a cfg w = open_connect a (Some h) (Some p) w1 ∧
    heap w1 !! h = Some (BlockChannelData d) ∧
    buffer_ok w1 (mqttRecvBufferSize d) (mqttRecvBuffer d) ∧
    buffer_ok w1 (mqttSendBufferSize d) (mqttSendBuffer d) ∧
    ∃ w',
      UA_PubSubChannelMQTT_open a cfg w = Some (NULL, w') ∧
      calls w' = CallDisconnect h :: CallConnect h :: calls w ∧
      heap w' = heap w ∧
      (∀ b, mqttRecvBuffer d = Some b ∨ mqttSendBuffer d = Some b →
            heap w' !! b = None).
Proof.
  intros Ha (H1 & H2 & H3 & H4) Hc.
  destruct (open_property_fields (connectionProperties cfg) (default_channelData address))
    as (_ & Hsb & Hrb & Hcn & _).
  unfold resolved_config in *. simpl in Hsb, Hrb, Hcn.
  open_prefix Ha H1 H2 H3 H4.
  all: eexists _, _, _, _; split; [reflexivity|].
  all: split; [norm_world; by map_lookup|].
  all: unfold buffer_ok; norm_world; norm_fields; rewrite ?Hrb, ?Hsb.
  all: repeat case_decide; try done.
  all: split; [first [done | by eexists; (split; [reflexivity|]); map_lookup]|].
  all: split; [first [done | by eexists; (split; [reflexivity|]); map_lookup]|].
  all: unfold open_connect, connectMqtt; msteps.
  all: (case_decide;
        [ (let l := fresh "l" in fresh_addr l); msteps | msteps ]).
  all: unfold disconnectMqtt; repeat (msteps; rewrite ?Hrb, ?Hsb, ?Hcn).
  all: rewrite mret_eval; eexists; split; [reflexivity|].
  all: split; [reflexivity|].
  all: norm_world.
  all: match goal with
       | |- ?m = _ ∧ _ => assert (m = heap w) as -> by heap_eq
       end.
  all: split; [done|].
  all: intros b [?|?]; by simplify_eq.
Qed.

Lemma open_early_failure a cfg w :
  (∀ address, config_address cfg = VariantNetworkAddressUrl address →
              ¬ reaches_connect a (resolved_config address cfg)) →
  ∃ w', UA_PubSubChannelMQTT_open a cfg w = Some (NULL, w') ∧
        calls w' = calls w ∧ heap w' = heap w.
Proof.
  intros Hn. unfold UA_PubSubChannelMQTT_open.
  destruct (config_address cfg) as [| |address|] eqn:Ha; try by eexists.
  specialize (Hn address eq_refl). unfold reaches_connect, resolved_config in Hn.
  destruct (calloc_channelData_ok a); [|by eexists].
  fresh_addr l1. msteps.
  destruct (calloc_newChannel_ok a).
  2:{ msteps. rewrite mret_eval. eexists; split; [done|]. split; [done|]. heap_eq. }
  fresh_addr l2. msteps.
  unfold open_recvBuffer. msteps. case_decide.
  - destruct (calloc_recvBuffer_ok a).
    2:{ msteps. rewrite mret_eval. eexists; split; [done|]. split; [done|]. heap_eq. }
    fresh_addr l3. msteps.
    unfold open_sendBuffer. msteps. case_decide; [|tauto].
    destruct (calloc_sendBuffer_ok a); [tauto|].
    msteps. rewrite mret_eval. eexists; split; [done|]. split; [done|]. heap_eq.
  - unfold open_sendBuffer. msteps. case_decide; [|tauto].
    destruct (calloc_sendBuffer_ok a); [tauto|].
    msteps. rewrite mret_eval. eexists; split; [done|]. split; [done|]. heap_eq.
Qed.

Lemma step_channel_state channel op w r w' :
  step channel op w = Some (r, w') →
  channel_state w' channel = channel_state w channel ∨
  channel_state w' channel = None ∨
  (channel_state w' channel = Some UA_PUBSUB_CHANNEL_ERROR ∧ transport_failure op r).
Proof.
  pose proof good_is_zero as Hgood.
  destruct op; simpl; intros Hs.
  - unfold UA_PubSubChannelMQTT_regist, subscribeMqtt in Hs. minv.
    all: state_solve.
  - unfold UA_PubSubChannelMQTT_unregist, unSubscribeMqtt in Hs. minv.
    all: state_solve.
  - unfold UA_PubSubChannelMQTT_send, publishMqtt in Hs. minv.
    all: state_solve.
    right; right. repeat split; eauto. congruence.
  - unfold UA_PubSubChannelMQTT_yield, yieldMqtt in Hs. minv.
    all: state_solve.
  - unfold UA_PubSubChannelMQTT_close, disconnectMqtt in Hs. minv.
    all: state_solve.
Qed.

Lemma run_not_ready channel ops w rs w' :
  run channel ops w = Some (rs, w') →
  channel_state w channel ≠ Some UA_PUBSUB_CHANNEL_RDY →
  channel_state w' channel ≠ Some UA_PUBSUB_CHANNEL_RDY.
Proof.
  revert w rs. induction ops as [|op ops IH]; simpl; intros w rs Hr Hw.
  - apply mret_Some in Hr as [_ ->]. done.
  - apply bind_Some in Hr as (r & w1 & Hs & Hr).
    apply bind_Some in Hr as (rs1 & w2 & Hr & Hm).
    apply mret_Some in Hm as [_ ->].
    apply (IH _ _ Hr).
    destruct (step_channel_state _ _ _ _ _ Hs) as [E|[E|[E _]]]; rewrite E; done.
Qed.

(** C7.  In every sequence of operations on a channel, a step takes the
    channel from Ready to Error only if it is a [send] or a [yield] that
    reports a failure of the transport, and once the channel is in Error no
    later step of the sequence finds it in Ready again. *)
Theorem ready_to_error_only_on_transport_failure
    channel pre op post w rs1 w1 r w2 rs2 w3 :
  run channel pre w = Some (rs1, w1) →
  step channel op w1 = Some (r, w2) →
  run channel post w2 = Some (rs2, w3) →
  (channel_state w1 channel = Some UA_PUBSUB_CHANNEL_RDY →
   channel_state w2 channel = Some UA_PUBSUB_CHANNEL_ERROR →
   transport_failure op r) ∧
  (channel_state w1 channel = Some UA_PUBSUB_CHANNEL_ERROR →
   channel_state w2 channel ≠ Some UA_PUBSUB_CHANNEL_RDY ∧
   channel_state w3 channel ≠ Some UA_PUBSUB_CHANNEL_RDY).
Proof.
  intros _ Hs Hpost.
  destruct (step_channel_state _ _ _ _ _ Hs) as [E|[E|[E F]]].
  - split; [congruence|]. intros E1.
    assert (channel_state w2 channel ≠ Some UA_PUBSUB_CHANNEL_RDY) by congruence.
    eauto using run_not_ready.
  - split; [congruence|]. intros E1.
    assert (channel_state w2 channel ≠ Some UA_PUBSUB_CHANNEL_RDY) by congruence.
    eauto using run_not_ready.
  - split; [done|]. intros E1.
    assert (channel_state w2 channel ≠ Some UA_PUBSUB_CHANNEL_RDY) by congruence.
    eauto using run_not_ready.
Qed.
End OpenAndSequences.

Section ChannelProperties.
Context `{!HeaderConstants}.

Lemma qos_labels_ne :
  UA_BROKERTRANSPORTQUALITYOFSERVICE_BESTEFFORT ≠ UA_BROKERTRANSPORTQUALITYOFSERVICE_ATLEASTONCE ∧
  UA_BROKERTRANSPORTQUALITYOFSERVICE_BESTEFFORT ≠ UA_BROKERTRANSPORTQUALITYOFSERVICE_ATMOSTONCE ∧
  UA_BROKERTRANSPORTQUALITYOFSERVICE_ATLEASTONCE ≠ UA_BROKERTRANSPORTQUALITYOFSERVICE_ATMOSTONCE.
Proof.
  pose proof qos_labels_distinct as Hd.
  apply NoDup_cons in Hd as [H1 Hd]. apply NoDup_cons in Hd as [H2 _].
  set_solver.
Qed.

(** C5.  The translation of the delivery guarantee maps each of the three
    named values to its transport QoS level, BestEffort to 0, AtLeastOnce to 1
    and AtMostOnce to 2, whatever the output held before, and reports
    success. *)
Theorem qos_mapping (qos : Z) :
  UA_uaQos_toMqttQos UA_BROKERTRANSPORTQUALITYOFSERVICE_BESTEFFORT qos
    = (UA_STATUSCODE_GOOD, 0) ∧
  UA_uaQos_toMqttQos UA_BROKERTRANSPORTQUALITYOFSERVICE_ATLEASTONCE qos
    = (UA_STATUSCODE_GOOD, 1) ∧
  UA_uaQos_toMqttQos UA_BROKERTRANSPORTQUALITYOFSERVICE_ATMOSTONCE qos
    = (UA_STATUSCODE_GOOD, 2).
Proof.
  destruct qos_labels_ne as (H1 & H2 & H3).
  unfold UA_uaQos_toMqttQos. repeat split; repeat case_decide; congruence.
Qed.

Lemma UA_uaQos_toMqttQos_default uaQos qos :
  uaQos ≠ UA_BROKERTRANSPORTQUALITYOFSERVICE_BESTEFFORT →
  uaQos ≠ UA_BROKERTRANSPORTQUALITYOFSERVICE_ATLEASTONCE →
  uaQos ≠ UA_BROKERTRANSPORTQUALITYOFSERVICE_ATMOSTONCE →
  UA_uaQos_toMqttQos uaQos qos = (UA_STATUSCODE_GOOD, qos).
Proof. intros. unfold UA_uaQos_toMqttQos. by repeat case_decide. Qed.

Lemma brokerTransportSettings_decoded data :
  brokerTransportSettings (Some (ExtDecoded (DecodedBrokerWriterGroupTransport data) false))
  = Some data.
Proof. reflexivity. Qed.

(** C10.  For a delivery guarantee that is none of the three named values,
    the translation leaves the output at the value its caller initialised and
    still reports success; [regist] and [send] on a Ready channel then go on
    and call the adapter with QoS level 0, and return what it answers. *)
Theorem unknown_guarantee_uses_qos_0 w p h c d uaQos topic cb buf answer :
  uaQos ≠ UA_BROKERTRANSPORTQUALITYOFSERVICE_BESTEFFORT →
  uaQos ≠ UA_BROKERTRANSPORTQUALITYOFSERVICE_ATLEASTONCE →
  uaQos ≠ UA_BROKERTRANSPORTQUALITYOFSERVICE_ATMOSTONCE →
  channel_at w p h c d →
  state c = UA_PUBSUB_CHANNEL_RDY →
  let settings :=
    Some (ExtDecoded (DecodedBrokerWriterGroupTransport
            {| queueName := topic; requestedDeliveryGuarantee := uaQos |}) false) in
  (∀ qos, UA_uaQos_toMqttQos uaQos qos = (UA_STATUSCODE_GOOD, qos)) ∧
  (∃ w', UA_PubSubChannelMQTT_regist answer (Some p) settings cb w = Some (answer, w') ∧
         calls w' = CallSubscribe h topic 0 :: calls w) ∧
  (∃ w', UA_PubSubChannelMQTT_send answer (Some p) settings buf w = Some (answer, w') ∧
         calls w' = CallPublish h topic buf 0 :: calls w).
Proof.
  intros N1 N2 N3 (Hp & Hh & Hd) Hst settings.
  destruct c as [st hd]; simpl in Hh, Hst; subst. unfold settings.
  split; [intros; by apply UA_uaQos_toMqttQos_default|].
  split.
  - unfold UA_PubSubChannelMQTT_regist, subscribeMqtt. msteps.
    rewrite brokerTransportSettings_decoded. cbn [queueName requestedDeliveryGuarantee].
    rewrite UA_uaQos_toMqttQos_default by done. cbn [snd]. msteps.
    rewrite mret_eval. by eexists.
  - unfold UA_PubSubChannelMQTT_send, publishMqtt. msteps.
    rewrite brokerTransportSettings_decoded. cbn [queueName requestedDeliveryGuarantee].
    rewrite UA_uaQos_toMqttQos_default by done. cbn [snd]. msteps.
    destruct (decide (answer = 0)) as [->|Hne].
    + msteps. rewrite mret_eval. by eexists.
    + msteps. rewrite mret_eval. by eexists.
Qed.

(** C9.  [regist] on a Ready channel stores the callback before it looks at
    the settings: when the settings are absent, not decoded or of another
    type, the call fails with [UA_STATUSCODE_BADARGUMENTSMISSING], nothing is
    subscribed, and the callback recorded in the channel data is the one
    passed to the failing call. *)
Theorem regist_stores_callback_before_validation w p h c d settings cb answer :
  channel_at w p h c d →
  state c = UA_PUBSUB_CHANNEL_RDY →
  settings_missing settings →
  ∃ w', UA_PubSubChannelMQTT_regist answer (Some p) settings cb w
          = Some (UA_STATUSCODE_BADARGUMENTSMISSING, w') ∧
        heap w' !! h = Some (BlockChannelData (set_callback cb d)) ∧
        callback (set_callback cb d) = cb ∧
        calls w' = calls w.
Proof.
  intros (Hp & Hh & Hd) Hst Hs. apply settings_missing_spec in Hs.
  destruct c as [st hd]; simpl in Hh, Hst; subst.
  unfold UA_PubSubChannelMQTT_regist. msteps.
  rewrite Hs, mret_eval. eexists; split; [done|]. norm_world.
  by rewrite lookup_insert_eq.
Qed.

(** C1.  What [send] does on a Ready channel when the settings are absent,
    not decoded or of another type: the channel and the heap are unchanged
    and nothing is published, but the status returned is
    [UA_STATUSCODE_GOOD], which is not [UA_STATUSCODE_BADARGUMENTSMISSING]
    (the status [regist] and [unregist] return on the same test). *)
Theorem send_without_settings_returns_good w p h c d settings buf answer :
  channel_at w p h c d →
  state c = UA_PUBSUB_CHANNEL_RDY →
  settings_missing settings →
  UA_PubSubChannelMQTT_send answer (Some p) settings buf w
    = Some (UA_STATUSCODE_GOOD, w) ∧
  UA_STATUSCODE_GOOD ≠ UA_STATUSCODE_BADARGUMENTSMISSING.
Proof.
  intros (Hp & Hh & Hd) Hst Hs. apply settings_missing_spec in Hs.
  destruct c as [st hd]; simpl in Hh, Hst; subst. split.
  - unfold UA_PubSubChannelMQTT_send. msteps.
    by rewrite Hs.
  - rewrite good_is_zero. intros E.
    apply (proj1 (Forall_forall _ _) bad_is_nonzero UA_STATUSCODE_BADARGUMENTSMISSING);
      [|done].
    repeat constructor.
Qed.


Lemma resolved_config_defaults address cfg :
  (omits "sendBufferSize" cfg →
   mqttSendBufferSize (resolved_config address cfg) = 2000) ∧
  (omits "recvBufferSize" cfg →
   mqttRecvBufferSize (resolved_config address cfg) = 2000) ∧
  (omits "mqttClientId" cfg →
   mqttClientId (resolved_config address cfg) = Some LocalOfOpen).
Proof.
  unfold omits, resolved_config.
  change 2000 with (mqttSendBufferSize (default_channelData address)) at 1.
  change 2000 with (mqttRecvBufferSize (default_channelData address)).
  change (Some LocalOfOpen) with (mqttClientId (default_channelData address)).
  generalize (default_channelData address).
  induction (connectionProperties cfg) as [|kv props IH]; intros d; simpl; [done|].
  destruct (IH (open_property d kv)) as (IH1 & IH2 & IH3).
  repeat split; intros [Hk Hf]%Forall_cons.
  - rewrite IH1 by done. unfold open_property. repeat case_decide; try done;
      by destruct (value kv).
  - rewrite IH2 by done. unfold open_property. repeat case_decide; try done;
      by destruct (value kv).
  - rewrite IH3 by done. unfold open_property. repeat case_decide; try done;
      by destruct (value kv).
Qed.

(** [open] has a result on every configuration, in every world and whatever
    the allocator and the adapter answer: NULL with the heap as it was, or a
    channel. *)
Lemma open_total a cfg w :
  ∃ r w', UA_PubSubChannelMQTT_open a cfg w = Some (r, w') ∧
          (r = NULL → heap w' = heap w).
Proof.
  destruct (config_address cfg) as [| |address|] eqn:Ha.
  1,2,4: destruct (open_early_failure a cfg w) as (w' & E & _ & Hh);
         [intros ? ?; congruence | eauto].
  destruct (decide (reaches_connect a (resolved_config address cfg))) as [Hr|Hr].
  - destruct (decide ((connect_answer a).1 = UA_STATUSCODE_GOOD)) as [Hc|Hc].
    + destruct (open_ready a cfg address w Ha Hr Hc) as (p & h & d & cn & w' & E & _).
      exists (Some p), w'. done.
    + destruct (open_connect_failure a cfg address w Ha Hr Hc)
        as (p & h & d & w1 & _ & _ & _ & _ & w' & E & _ & Hh & _).
      eauto.
  - destruct (open_early_failure a cfg w) as (w' & E & _ & Hh); [|eauto].
    intros address' Ha'. congruence.
Qed.

(** What [open] has done whenever it returns a channel. *)
Lemma open_Some a cfg w p w' :
  UA_PubSubChannelMQTT_open a cfg w = Some (Some p, w') →
  ∃ address h d cn,
    config_address cfg = VariantNetworkAddressUrl address ∧
    reaches_connect a (resolved_config address cfg) ∧
    (connect_answer a).1 = UA_STATUSCODE_GOOD ∧
    calls w' = CallConnect h :: calls w ∧
    channel_at w' p h {| state := UA_PUBSUB_CHANNEL_RDY; handle := Some h |} d ∧
    same_config d (resolved_config address cfg) ∧
    buffer_ok w' (mqttRecvBufferSize d) (mqttRecvBuffer d) ∧
    buffer_ok w' (mqttSendBufferSize d) (mqttSendBuffer d) ∧
    connection d = Some cn ∧ heap w' !! cn = Some BlockConnection ∧
    callback d = None ∧
    heap w !! p = None ∧
    heap w ⊆ heap w'.
Proof.
  intros E.
  destruct (config_address cfg) as [| |address|] eqn:Ha.
  1,2,4: destruct (open_early_failure a cfg w) as (w1 & E1 & _);
         [intros ? ?; congruence | congruence].
  destruct (decide (reaches_connect a (resolved_config address cfg))) as [Hr|Hr].
  - destruct (decide ((connect_answer a).1 = UA_STATUSCODE_GOOD)) as [Hc|Hc].
    + destruct (open_ready a cfg address w Ha Hr Hc)
        as (p1 & h & d & cn & w1 & E1 & F).
      rewrite E1 in E. injection E as -> ->. exists address, h, d, cn. tauto.
    + destruct (open_connect_failure a cfg address w Ha Hr Hc)
        as (p1 & h & d & w1 & _ & _ & _ & _ & w2 & E1 & _).
      congruence.
  - destruct (open_early_failure a cfg w) as (w1 & E1 & _); [|congruence].
    intros address' Ha'. congruence.
Qed.

(** C4, amended.  Whenever [open] returns a channel, the channel data hold
    the defaults for what the property list omits: a send buffer of 2000
    bytes when no property is named sendBufferSize, a receive buffer of 2000
    bytes when none is named recvBufferSize, and when none is named
    mqttClientId the address of the variable of [open] that holds
    "open62541_pub", the client identifier a read finds while [open] runs,
    as the connect call does. *)
Theorem open_applies_defaults a cfg w p w' :
  UA_PubSubChannelMQTT_open a cfg w = Some (Some p, w') →
  ∃ h c d,
    channel_at w' p h c d ∧
    (omits "sendBufferSize" cfg →
     mqttSendBufferSize d = 2000 ∧
     ∃ b, mqttSendBuffer d = Some b ∧ heap w' !! b = Some (BlockBytes 2000)) ∧
    (omits "recvBufferSize" cfg →
     mqttRecvBufferSize d = 2000 ∧
     ∃ b, mqttRecvBuffer d = Some b ∧ heap w' !! b = Some (BlockBytes 2000)) ∧
    (omits "mqttClientId" cfg →
     mqttClientId d = Some LocalOfOpen ∧
     mqttClientId d ≫= UA_String_read DuringOpen = Some "open62541_pub").
Proof.
  intros (address & h & d & cn & Ha & _ & _ & _ & Hch & Hsame & Hrb & Hsb & _)%open_Some.
  destruct Hsame as (_ & Hr & Hs & Hid).
  destruct (resolved_config_defaults address cfg) as (D1 & D2 & D3).
  eexists h, _, d. split; [done|].
  split; [|split].
  - intros Ho. unfold buffer_ok in Hsb. rewrite Hs, D1 in * by done.
    by rewrite decide_True in Hsb.
  - intros Ho. unfold buffer_ok in Hrb. rewrite Hr, D2 in * by done.
    by rewrite decide_True in Hrb.
  - intros Ho. rewrite Hid, D3 by done. done.
Qed.

(** The default client identifier does not outlive [open]: once [open] has
    returned a channel for a property list without mqttClientId, a read
    through the stored pointer has no defined result. *)
Lemma default_client_id_dangles a cfg w p w' :
  UA_PubSubChannelMQTT_open a cfg w = Some (Some p, w') →
  omits "mqttClientId" cfg →
  ∃ h c d,
    channel_at w' p h c d ∧
    mqttClientId d ≫= UA_String_read AfterOpen = None.
Proof.
  intros (address & h & d & cn & Ha & _ & _ & _ & Hch & Hsame & _)%open_Some Ho.
  destruct Hsame as (_ & _ & _ & Hid).
  destruct (resolved_config_defaults address cfg) as (_ & _ & D3).
  eexists h, _, d. split; [done|]. rewrite Hid, D3 by done. done.
Qed.

(** C6.  When [open] gets as far as [connectMqtt] (the address is valid, both
    structs and every buffer asked for are allocated) and the connect fails,
    it returns NULL, no channel, and every block it had allocated is released:
    the heap is the one [open] started from, and the receive and the send
    buffer that were live at the connect step are not live any more. *)
Theorem open_connect_failure_rolls_back a cfg address w :
  config_address cfg = VariantNetworkAddressUrl address →
  reaches_connect a (resolved_config address cfg) →
  (connect_answer a).1 ≠ UA_STATUSCODE_GOOD →
  ∃ p h d w1,
    UA_PubSubChannelMQTT_open a cfg w = open_connect a (Some h) (Some p) w1 ∧
    heap w1 !! h = Some (BlockChannelData d) ∧
    buffer_ok w1 (mqttRecvBufferSize d) (mqttRecvBuffer d) ∧
    buffer_ok w1 (mqttSendBufferSize d) (mqttSendBuffer d) ∧
    ∃ w',
      UA_PubSubChannelMQTT_open a cfg w = Some (NULL, w') ∧
      calls w' = CallDisconnect h :: CallConnect h :: calls w ∧
      heap w' = heap w ∧
      (∀ b, mqttRecvBuffer d = Some b ∨ mqttSendBuffer d = Some b →
            heap w' !! b = None).
Proof. apply open_connect_failure. Qed.

Lemma release_lookup_ne (q : ptr) (m : gmap positive block) l :
  q ≠ Some l → release q m !! l = m !! l.
Proof.
  destruct q as [l'|]; simpl; [|done]. intros Hne.
  apply lookup_delete_ne. congruence.
Qed.

Lemma release_buffer_dead w l :
  heap w !! l = None → release_buffer (Some l) w = Some (tt, w).
Proof. intros E. unfold release_buffer. by rewrite E. Qed.

Ltac release_any :=
  match goal with
  | |- context [(release_buffer ?b ≫= _) ?w2] =>
      let w3 := fresh "w" in let E := fresh "E" in
      let Hc := fresh "Hc" in let Hk := fresh "Hk" in
      destruct (release_buffer_total b w2) as (w3 & E & Hc & Hk);
      erewrite bind_eval by exact E;
      norm_world
  end.

Lemma close_open_channel w p h c d :
  channel_at w p h c d →
  state c ≠ UA_PUBSUB_CHANNEL_CLOSED →
  connection_ok w d →
  ∃ w', UA_PubSubChannelMQTT_close (Some p) w = Some (UA_STATUSCODE_GOOD, w') ∧
        calls w' = CallDisconnect h :: calls w ∧
        heap w' !! p = None ∧ heap w' !! h = None.
Proof.
  intros (Hp & Hh & Hd) Hst Hcn.
  destruct c as [st hd]; simpl in Hh, Hst; subst.
  assert (p ≠ h) by congruence. assert (h ≠ p) by congruence.
  unfold UA_PubSubChannelMQTT_close, disconnectMqtt. msteps.
  unfold connection_ok in Hcn. destruct (connection d) as [cn|] eqn:Ec;
    [assert (cn ≠ h) by congruence; assert (cn ≠ p) by congruence|].
  all: msteps.
  all: release_any.
  all: match goal with
       | Hk : ∀ i blk, _ → _ → heap ?w3 !! i = Some blk |- _ =>
           pose proof (Hk p _ ltac:(norm_world; map_lookup; exact Hp) ltac:(done));
           pose proof (Hk h _ ltac:(norm_world; map_lookup; reflexivity) ltac:(done));
           clear Hk
       end.
  all: msteps.
  all: release_any.
  all: match goal with
       | Hk : ∀ i blk, _ → _ → heap ?w3 !! i = Some blk |- _ =>
           pose proof (Hk p _ ltac:(norm_world; map_lookup; eassumption) ltac:(done));
           pose proof (Hk h _ ltac:(norm_world; map_lookup; reflexivity) ltac:(done));
           clear Hk
       end.
  all: msteps.
  all: rewrite mret_eval; eexists; split; [done|].
  all: norm_world.
  all: split; [repeat (norm_world; match goal with Hc : calls _ = _ |- _ => rewrite Hc; clear Hc end); done|].
  all: split; [apply lookup_delete_eq|].
  all: rewrite lookup_delete_ne by done; apply lookup_delete_eq.
Qed.
(** What [close] leaves of the heap when the connection and the buffers are
    the live blocks the channel data refer to. *)
Lemma close_releases w p h c d :
  channel_at w p h c d →
  state c ≠ UA_PUBSUB_CHANNEL_CLOSED →
  connection_ok w d →
  buffer_ok w (mqttRecvBufferSize d) (mqttRecvBuffer d) →
  buffer_ok w (mqttSendBufferSize d) (mqttSendBuffer d) →
  ∃ w', UA_PubSubChannelMQTT_close (Some p) w = Some (UA_STATUSCODE_GOOD, w') ∧
        calls w' = CallDisconnect h :: calls w ∧
        heap w' = delete p (delete h (release (mqttSendBuffer d)
                    (release (mqttRecvBuffer d) (release (connection d) (heap w))))).
Proof.
  intros (Hp & Hh & Hd) Hst Hcn Hrb Hsb.
  destruct c as [st hd]; simpl in Hh, Hst; subst.
  assert (p ≠ h) by congruence. assert (h ≠ p) by congruence.
  unfold connection_ok in Hcn. unfold buffer_ok in Hrb, Hsb.
  destruct (connection d) as [cn|] eqn:Ec;
    [assert (cn ≠ h) by congruence; assert (cn ≠ p) by congruence|].
  all: destruct (decide (0 < mqttRecvBufferSize d));
    [destruct Hrb as (rb & Erb & Hrb);
     assert (rb ≠ h) by congruence; assert (rb ≠ p) by congruence;
     try assert (rb ≠ cn) by congruence
    |rename Hrb into Erb].
  all: destruct (decide (0 < mqttSendBufferSize d));
    [destruct Hsb as (sb & Esb & Hsb);
     assert (sb ≠ h) by congruence; assert (sb ≠ p) by congruence;
     try assert (sb ≠ cn) by congruence
    |rename Hsb into Esb].
  all: rewrite ?Erb, ?Esb.
  all: try destruct (decide (sb = rb)) as [->|].
  all: unfold UA_PubSubChannelMQTT_close, disconnectMqtt.
  all: repeat first
         [ progress rewrite ?Ec, ?Erb, ?Esb
         | mstep
         | erewrite bind_eval
             by (apply release_buffer_dead; norm_world; map_lookup;
                 apply lookup_delete_eq) ].
  all: rewrite mret_eval; eexists; split; [reflexivity|]; split; [reflexivity|].
  all: norm_world; simpl.
  all: apply map_eq; intros i.
  all: destruct (decide (i = p)) as [->|]; [by rewrite !lookup_delete_eq|].
  all: rewrite !(lookup_delete_ne _ p) by done.
  all: destruct (decide (i = h)) as [->|]; [by rewrite !lookup_delete_eq|].
  all: rewrite !(lookup_delete_ne _ h) by done.
  all: repeat match goal with
       | |- context [<[_ := _]> _ !! _] => rewrite lookup_insert_ne by done
       | |- context [delete ?x _ !! ?j] =>
           destruct (decide (j = x)) as [->|];
             [ by repeat first [ rewrite lookup_delete_eq
                               | rewrite lookup_delete_ne by done
                               | rewrite lookup_insert_ne by done ]
             | rewrite !(lookup_delete_ne _ x) by done ]
       end.
  all: done.
Qed.

(** C2.  [close] on a Ready or Error channel returns [UA_STATUSCODE_GOOD]
    and releases the connection and both buffers allocated by [open] (with
    the channel data and the channel): none of them is live afterwards, and
    nothing else is touched. *)
Theorem close_releases_connection_and_buffers w p h c d :
  channel_at w p h c d →
  state c = UA_PUBSUB_CHANNEL_RDY ∨ state c = UA_PUBSUB_CHANNEL_ERROR →
  connection_ok w d →
  buffer_ok w (mqttRecvBufferSize d) (mqttRecvBuffer d) →
  buffer_ok w (mqttSendBufferSize d) (mqttSendBuffer d) →
  ∃ w', UA_PubSubChannelMQTT_close (Some p) w = Some (UA_STATUSCODE_GOOD, w') ∧
        calls w' = CallDisconnect h :: calls w ∧
        (∀ l, connection d = Some l ∨ mqttRecvBuffer d = Some l ∨ mqttSendBuffer d = Some l →
              heap w' !! l = None) ∧
        heap w' = delete p (delete h (release (mqttSendBuffer d)
                    (release (mqttRecvBuffer d) (release (connection d) (heap w))))).
Proof.
  intros Hch Hst Hcn Hrb Hsb.
  destruct (close_releases w p h c d Hch) as (w' & E & Hc & Hw'); [|done..|].
  { intros Hcl. destruct Hst; congruence. }
  exists w'. split; [done|]. split; [done|]. split; [|done].
  intros l Hl. rewrite Hw'.
  destruct (decide (l = p)) as [->|]; [apply lookup_delete_eq|].
  rewrite lookup_delete_ne by done.
  destruct (decide (l = h)) as [->|]; [apply lookup_delete_eq|].
  rewrite lookup_delete_ne by done.
  destruct (decide (mqttSendBuffer d = Some l)) as [->|Hs]; [apply lookup_delete_eq|].
  rewrite release_lookup_ne by done.
  destruct (decide (mqttRecvBuffer d = Some l)) as [->|Hr]; [apply lookup_delete_eq|].
  rewrite release_lookup_ne by done.
  destruct Hl as [->|[?|?]]; [apply lookup_delete_eq|done..].
Qed.

(** C3, amended.  [close] on a channel whose state is Closed changes nothing
    and returns success.  [close] on a channel in any other state returns
    success and frees the channel object: the channel is never in the Closed
    state afterwards, and a second [close] on the freed channel has no defined
    result. *)
Theorem close_frees_channel_and_closed_is_noop w p c :
  heap w !! p = Some (BlockChannel c) →
  (state c = UA_PUBSUB_CHANNEL_CLOSED →
   UA_PubSubChannelMQTT_close (Some p) w = Some (UA_STATUSCODE_GOOD, w)) ∧
  (state c ≠ UA_PUBSUB_CHANNEL_CLOSED →
   ∀ h d, handle c = Some h → heap w !! h = Some (BlockChannelData d) →
          connection_ok w d →
     ∃ w', UA_PubSubChannelMQTT_close (Some p) w = Some (UA_STATUSCODE_GOOD, w') ∧
           channel_state w' (Some p) = None ∧
           UA_PubSubChannelMQTT_close (Some p) w' = None).
Proof.
  intros Hp. split.
  - intros Hst. destruct c as [st hd]; simpl in Hst; subst.
    unfold UA_PubSubChannelMQTT_close. by msteps.
  - intros Hst h d Hh Hd Hcn.
    destruct (close_open_channel w p h c d) as (w' & E & _ & Hfreed & _); [done..|].
    exists w'. split; [done|].
    split.
    + unfold channel_state. simpl. by rewrite Hfreed.
    + unfold UA_PubSubChannelMQTT_close, channel_get, load_channel, mbind, M_bind.
      simpl. by rewrite Hfreed.
Qed.


End ChannelProperties.

Section Nodestore.
Import NodestoreSwitch.

(** C8.  For a namespace index with a linked backend, removing the mapping
    makes the lookup return the default backend; removing or replacing a
    mapping leaves every backend as it was, so the backend that was linked
    lists the same nodes, and it survives the teardown of the server when it
    is neither the default nor linked under another index. *)
Theorem unlink_returns_default_and_keeps_backend (s : state) (n : N) (B : positive) :
  nodestoreArray (switch s) !! n = Some B →
  let s' := UA_Nodestore_Switch_setNodestore n None s in
  getBackend n s' = defaultNodestore (switch s) ∧
  iterate B s' = iterate B s ∧
  (∀ B', nodestores (UA_Nodestore_Switch_setNodestore n B' s) = nodestores s) ∧
  (Some B ≠ defaultNodestore (switch s) →
   (∀ m, m ≠ n → nodestoreArray (switch s) !! m ≠ Some B) →
   UA_Server_delete s' !! B = nodestores s !! B).
Proof.
  intros Hn s'. split; [|split; [|split]].
  - unfold getBackend, s'. simpl. by rewrite lookup_delete_eq.
  - done.
  - done.
  - intros Hd Hother. unfold UA_Server_delete, s'. simpl.
    rewrite map_lookup_filter.
    destruct (nodestores s !! B) as [nodes|] eqn:E; simpl; [|done].
    rewrite option_guard_True; [done|]. simpl. split; [done|].
    intros ([k b] & Hb & Hk%elem_of_map_to_list)%list_elem_of_fmap. simpl in Hb. subst b.
    apply lookup_delete_Some in Hk as [Hne Hk].
    by apply (Hother k).
Qed.

Lemma main_linked_sample_state : main_linked = (2%positive, sample_state).
Proof. vm_compute. reflexivity. Qed.

Lemma main_lists_the_test_nodes :
  main_listing =
  Some [ {| nodeId_namespaceIndex := 1; nodeId_identifier := "TestNode1" |};
         {| nodeId_namespaceIndex := 1; nodeId_identifier := "TestNode2" |};
         {| nodeId_namespaceIndex := 1; nodeId_identifier := "TestNode3" |} ].
Proof. vm_compute. reflexivity. Qed.

End Nodestore.

(** ** The statements on the concrete channel *)

Lemma send_without_settings_returns_good_witness :
  channel_at sample_world 2 1 sample_channel sample_data ∧
  state sample_channel = UA_PUBSUB_CHANNEL_RDY ∧
  settings_missing None ∧
  UA_PubSubChannelMQTT_send 0 (Some 2%positive) None "payload" sample_world
    = Some (UA_STATUSCODE_GOOD, sample_world) ∧
  UA_STATUSCODE_GOOD ≠ UA_STATUSCODE_BADARGUMENTSMISSING.
Proof.
  assert (Hc : channel_at sample_world 2 1 sample_channel sample_data)
    by (repeat split; reflexivity).
  split; [exact Hc|]. split; [reflexivity|]. split; [simpl; lia|].
  apply (send_without_settings_returns_good sample_world 2 1 sample_channel sample_data
           None "payload" 0 Hc); [reflexivity | simpl; lia].
Defined.

Lemma close_releases_connection_and_buffers_witness :
  channel_at sample_world 2 1 sample_channel sample_data ∧
  (state sample_channel = UA_PUBSUB_CHANNEL_RDY ∨
   state sample_channel = UA_PUBSUB_CHANNEL_ERROR) ∧
  connection_ok sample_world sample_data ∧
  buffer_ok sample_world (mqttRecvBufferSize sample_data) (mqttRecvBuffer sample_data) ∧
  buffer_ok sample_world (mqttSendBufferSize sample_data) (mqttSendBuffer sample_data) ∧
  ∃ w', UA_PubSubChannelMQTT_close (Some 2%positive) sample_world
          = Some (UA_STATUSCODE_GOOD, w') ∧
        calls w' = CallDisconnect 1 :: calls sample_world ∧
        (∀ l, connection sample_data = Some l ∨ mqttRecvBuffer sample_data = Some l ∨
              mqttSendBuffer sample_data = Some l →
              heap w' !! l = None) ∧
        heap w' = delete 2%positive (delete 1%positive
                    (release (mqttSendBuffer sample_data)
                       (release (mqttRecvBuffer sample_data)
                          (release (connection sample_data) (heap sample_world))))).
Proof.
  assert (Hc : channel_at sample_world 2 1 sample_channel sample_data)
    by (repeat split; reflexivity).
  assert (Hr : buffer_ok sample_world (mqttRecvBufferSize sample_data)
                 (mqttRecvBuffer sample_data))
    by (exists 3%positive; split; reflexivity).
  assert (Hs : buffer_ok sample_world (mqttSendBufferSize sample_data)
                 (mqttSendBuffer sample_data))
    by (exists 4%positive; split; reflexivity).
  split; [exact Hc|]. split; [left; reflexivity|]. split; [reflexivity|].
  split; [exact Hr|]. split; [exact Hs|].
  apply (close_releases_connection_and_buffers sample_world 2 1 sample_channel sample_data
           Hc); [left; reflexivity | reflexivity | exact Hr | exact Hs].
Defined.

Lemma first_close_does_not_enter_closed_state :
  ∃ w', UA_PubSubChannelMQTT_close (Some 2%positive) sample_world
          = Some (UA_STATUSCODE_GOOD, w') ∧
        channel_state w' (Some 2%positive) ≠ Some UA_PUBSUB_CHANNEL_CLOSED ∧
        UA_PubSubChannelMQTT_close (Some 2%positive) w' ≠ Some (UA_STATUSCODE_GOOD, w').
Proof.
  eexists. split; [vm_compute; reflexivity|]. split; vm_compute; discriminate.
Qed.

Lemma close_frees_channel_and_closed_is_noop_witness :
  heap sample_world !! 2%positive = Some (BlockChannel sample_channel) ∧
  (state sample_channel = UA_PUBSUB_CHANNEL_CLOSED →
   UA_PubSubChannelMQTT_close (Some 2%positive) sample_world
     = Some (UA_STATUSCODE_GOOD, sample_world)) ∧
  (state sample_channel ≠ UA_PUBSUB_CHANNEL_CLOSED →
   ∀ h d, handle sample_channel = Some h →
          heap sample_world !! h = Some (BlockChannelData d) →
          connection_ok sample_world d →
     ∃ w', UA_PubSubChannelMQTT_close (Some 2%positive) sample_world
             = Some (UA_STATUSCODE_GOOD, w') ∧
           channel_state w' (Some 2%positive) = None ∧
           UA_PubSubChannelMQTT_close (Some 2%positive) w' = None).
Proof.
  split; [reflexivity|].
  apply (close_frees_channel_and_closed_is_noop sample_world 2 sample_channel).
  reflexivity.
Defined.

Lemma default_client_id_is_not_generic_pub :
  omits "mqttClientId" sample_config ∧
  UA_PubSubChannelMQTT_open (all_ok (UA_STATUSCODE_GOOD, false)) sample_config empty_world
    = Some (Some 2%positive, sample_world) ∧
  channel_at sample_world 2 1 sample_channel sample_data ∧
  mqttClientId sample_data ≫= UA_String_read DuringOpen ≠ Some "generic_pub" ∧
  mqttClientId sample_data ≫= UA_String_read AfterOpen ≠ Some "generic_pub".
Proof.
  split; [constructor|]. split; [exact sample_world_opened|].
  split; [repeat split; reflexivity|]. split; discriminate.
Qed.

Lemma open_applies_defaults_witness :
  UA_PubSubChannelMQTT_open (all_ok (UA_STATUSCODE_GOOD, false)) sample_config empty_world
    = Some (Some 2%positive, sample_world) ∧
  ∃ h c d,
    channel_at sample_world 2 h c d ∧
    (omits "sendBufferSize" sample_config →
     mqttSendBufferSize d = 2000 ∧
     ∃ b, mqttSendBuffer d = Some b ∧ heap sample_world !! b = Some (BlockBytes 2000)) ∧
    (omits "recvBufferSize" sample_config →
     mqttRecvBufferSize d = 2000 ∧
     ∃ b, mqttRecvBuffer d = Some b ∧ heap sample_world !! b = Some (BlockBytes 2000)) ∧
    (omits "mqttClientId" sample_config →
     mqttClientId d = Some LocalOfOpen ∧
     mqttClientId d ≫= UA_String_read DuringOpen = Some "open62541_pub").
Proof.
  assert (E : UA_PubSubChannelMQTT_open (all_ok (UA_STATUSCODE_GOOD, false)) sample_config
                empty_world = Some (Some 2%positive, sample_world))
    by exact sample_world_opened.
  split; [exact E|].
  apply (open_applies_defaults (all_ok (UA_STATUSCODE_GOOD, false)) sample_config
           empty_world 2 sample_world E).
Defined.

Lemma open_connect_failure_rolls_back_witness :
  config_address sample_config
    = VariantNetworkAddressUrl {| networkInterface := ""; url := "opc.mqtt://broker:1883" |} ∧
  reaches_connect (all_ok (UA_STATUSCODE_BADINTERNALERROR, true))
    (resolved_config {| networkInterface := ""; url := "opc.mqtt://broker:1883" |}
       sample_config) ∧
  (connect_answer (all_ok (UA_STATUSCODE_BADINTERNALERROR, true))).1 ≠ UA_STATUSCODE_GOOD ∧
  ∃ p h d w1,
    UA_PubSubChannelMQTT_open (all_ok (UA_STATUSCODE_BADINTERNALERROR, true)) sample_config
      empty_world
    = open_connect (all_ok (UA_STATUSCODE_BADINTERNALERROR, true)) (Some h) (Some p) w1 ∧
    heap w1 !! h = Some (BlockChannelData d) ∧
    buffer_ok w1 (mqttRecvBufferSize d) (mqttRecvBuffer d) ∧
    buffer_ok w1 (mqttSendBufferSize d) (mqttSendBuffer d) ∧
    ∃ w',
      UA_PubSubChannelMQTT_open (all_ok (UA_STATUSCODE_BADINTERNALERROR, true)) sample_config
        empty_world = Some (NULL, w') ∧
      calls w' = CallDisconnect h :: CallConnect h :: calls empty_world ∧
      heap w' = heap empty_world ∧
      (∀ b, mqttRecvBuffer d = Some b ∨ mqttSendBuffer d = Some b →
            heap w' !! b = None).
Proof.
  split; [reflexivity|]. split; [repeat split; reflexivity|]. split; [simpl; lia|].
  apply (open_connect_failure_rolls_back (all_ok (UA_STATUSCODE_BADINTERNALERROR, true))
           sample_config {| networkInterface := ""; url := "opc.mqtt://broker:1883" |}
           empty_world);
    [reflexivity | repeat split; reflexivity | simpl; lia].
Defined.

Lemma ready_to_error_only_on_transport_failure_witness :
  ∃ rs1 w1 r w2 rs2 w3,
    run (Some 2%positive) [OpSend (sample_settings 2) "a" UA_STATUSCODE_GOOD] sample_world
      = Some (rs1, w1) ∧
    step (Some 2%positive) (OpSend (sample_settings 2) "b" UA_STATUSCODE_BADINTERNALERROR) w1
      = Some (r, w2) ∧
    run (Some 2%positive)
      [OpSend (sample_settings 2) "c" UA_STATUSCODE_GOOD; OpYield 10 UA_STATUSCODE_GOOD] w2
      = Some (rs2, w3) ∧
    (channel_state w1 (Some 2%positive) = Some UA_PUBSUB_CHANNEL_RDY →
     channel_state w2 (Some 2%positive) = Some UA_PUBSUB_CHANNEL_ERROR →
     transport_failure (OpSend (sample_settings 2) "b" UA_STATUSCODE_BADINTERNALERROR) r) ∧
    (channel_state w1 (Some 2%positive) = Some UA_PUBSUB_CHANNEL_ERROR →
     channel_state w2 (Some 2%positive) ≠ Some UA_PUBSUB_CHANNEL_RDY ∧
     channel_state w3 (Some 2%positive) ≠ Some UA_PUBSUB_CHANNEL_RDY).
Proof.
  eexists _, _, _, _, _, _.
  split; [vm_compute; reflexivity|].
  split; [vm_compute; reflexivity|].
  split; [vm_compute; reflexivity|].
  eapply (ready_to_error_only_on_transport_failure (Some 2%positive)
            [OpSend (sample_settings 2) "a" UA_STATUSCODE_GOOD]
            (OpSend (sample_settings 2) "b" UA_STATUSCODE_BADINTERNALERROR)
            [OpSend (sample_settings 2) "c" UA_STATUSCODE_GOOD;
             OpYield 10 UA_STATUSCODE_GOOD]
            sample_world);
    vm_compute; reflexivity.
Defined.

Lemma unlink_returns_default_and_keeps_backend_witness :
  NodestoreSwitch.nodestoreArray (NodestoreSwitch.switch NodestoreSwitch.sample_state) !! 1%N
    = Some 2%positive ∧
  let s' := NodestoreSwitch.UA_Nodestore_Switch_setNodestore 1 None
              NodestoreSwitch.sample_state in
  NodestoreSwitch.getBackend 1 s'
    = NodestoreSwitch.defaultNodestore (NodestoreSwitch.switch NodestoreSwitch.sample_state) ∧
  NodestoreSwitch.iterate 2 s' = NodestoreSwitch.iterate 2 NodestoreSwitch.sample_state ∧
  (∀ B', NodestoreSwitch.nodestores
           (NodestoreSwitch.UA_Nodestore_Switch_setNodestore 1 B' NodestoreSwitch.sample_state)
         = NodestoreSwitch.nodestores NodestoreSwitch.sample_state) ∧
  (Some 2%positive
     ≠ NodestoreSwitch.defaultNodestore (NodestoreSwitch.switch NodestoreSwitch.sample_state) →
   (∀ m, m ≠ 1%N →
         NodestoreSwitch.nodestoreArray (NodestoreSwitch.switch NodestoreSwitch.sample_state)
           !! m ≠ Some 2%positive) →
   NodestoreSwitch.UA_Server_delete s' !! 2%positive
     = NodestoreSwitch.nodestores NodestoreSwitch.sample_state !! 2%positive).
Proof.
  split; [reflexivity|].
  apply (unlink_returns_default_and_keeps_backend NodestoreSwitch.sample_state 1 2).
  reflexivity.
Defined.

Lemma regist_stores_callback_before_validation_witness :
  channel_at sample_world 2 1 sample_channel sample_data ∧
  state sample_channel = UA_PUBSUB_CHANNEL_RDY ∧
  settings_missing (Some (ExtDecoded DecodedOtherType false)) ∧
  ∃ w', UA_PubSubChannelMQTT_regist 0 (Some 2%positive)
          (Some (ExtDecoded DecodedOtherType false)) (Some 7%nat) sample_world
          = Some (UA_STATUSCODE_BADARGUMENTSMISSING, w') ∧
        heap w' !! 1%positive = Some (BlockChannelData (set_callback (Some 7%nat) sample_data)) ∧
        callback (set_callback (Some 7%nat) sample_data) = Some 7%nat ∧
        calls w' = calls sample_world.
Proof.
  assert (Hc : channel_at sample_world 2 1 sample_channel sample_data)
    by (repeat split; reflexivity).
  split; [exact Hc|]. split; [reflexivity|].
  split; [right; exists false; reflexivity|].
  apply (regist_stores_callback_before_validation sample_world 2 1 sample_channel
           sample_data (Some (ExtDecoded DecodedOtherType false)) (Some 7%nat) 0 Hc);
    [reflexivity | right; exists false; reflexivity].
Defined.

Lemma unknown_guarantee_uses_qos_0_witness :
  4 ≠ UA_BROKERTRANSPORTQUALITYOFSERVICE_BESTEFFORT ∧
  4 ≠ UA_BROKERTRANSPORTQUALITYOFSERVICE_ATLEASTONCE ∧
  4 ≠ UA_BROKERTRANSPORTQUALITYOFSERVICE_ATMOSTONCE ∧
  channel_at sample_world 2 1 sample_channel sample_data ∧
  state sample_channel = UA_PUBSUB_CHANNEL_RDY ∧
  (∀ qos, UA_uaQos_toMqttQos 4 qos = (UA_STATUSCODE_GOOD, qos)) ∧
  (∃ w', UA_PubSubChannelMQTT_regist 0 (Some 2%positive) (sample_settings 4) (Some 7%nat)
           sample_world = Some (0, w') ∧
         calls w' = CallSubscribe 1 "t" 0 :: calls sample_world) ∧
  (∃ w', UA_PubSubChannelMQTT_send 0 (Some 2%positive) (sample_settings 4) "payload"
           sample_world = Some (0, w') ∧
         calls w' = CallPublish 1 "t" "payload" 0 :: calls sample_world).
Proof.
  assert (Hc : channel_at sample_world 2 1 sample_channel sample_data)
    by (repeat split; reflexivity).
  split; [simpl; lia|]. split; [simpl; lia|]. split; [simpl; lia|].
  split; [exact Hc|]. split; [reflexivity|].
  apply (unknown_guarantee_uses_qos_0 sample_world 2 1 sample_channel sample_data 4 "t"
           (Some 7%nat) "payload" 0);
    [simpl; lia | simpl; lia | simpl; lia | exact Hc | reflexivity].
Defined.

(** ** Further properties of the channel functions *)

Section PropertyParsing.
Context `{!HeaderConstants}.

Lemma open_property_not_acted_on d kv : ¬ acted_on kv → open_property d kv = d.
Proof.
  unfold acted_on, open_property. intros Hn.
  repeat case_decide; destruct (value kv); try done; exfalso; apply Hn; auto.
Qed.

Lemma foldl_open_property_filter props d :
  foldl open_property d props = foldl open_property d (filter acted_on props).
Proof.
  revert d. induction props as [|kv props IH]; intros d; simpl; [done|].
  rewrite filter_cons. case_decide as Hk.
  - simpl. apply IH.
  - rewrite open_property_not_acted_on by done. apply IH.
Qed.

Lemma data_set_ext p f g w :
  (∀ d, f d = g d) → data_set p f w = data_set p g w.
Proof.
  intros Hfg. unfold data_set, mbind, M_bind.
  destruct (load_data p w) as [[d w1]|]; [|done]. by rewrite Hfg.
Qed.

Lemma bind_ext {A B} (m : M A) (f g : A → M B) w :
  (∀ a w', f a w' = g a w') → (m ≫= f) w = (m ≫= g) w.
Proof.
  intros Hfg. unfold mbind, M_bind. destruct (m w) as [[a w']|]; [apply Hfg|done].
Qed.

Lemma bind_ext_l {A B} (m m' : M A) (f : A → M B) w :
  m w = m' w → (m ≫= f) w = (m' ≫= f) w.
Proof. intros E. unfold mbind, M_bind. by rewrite E. Qed.

(** X1.  [open] ignores every property that is not one of the three it
    knows with a value of the expected type: a property with another name, a
    buffer size that is not a [UInt32] and a client identifier that is not a
    [String] leave the outcome of [open] as it is without them, in every
    world and whatever the allocations and the broker answer. *)
Theorem open_ignores_other_properties a cfg w :
  UA_PubSubChannelMQTT_open a cfg w
  = UA_PubSubChannelMQTT_open a
      (with_properties cfg (filter acted_on (connectionProperties cfg))) w.
Proof.
  unfold UA_PubSubChannelMQTT_open, with_properties. simpl.
  destruct (config_address cfg) as [| |address|]; try done.
  apply bind_ext. intros cd w1. case_decide; [done|].
  apply bind_ext. intros [] w2.
  apply bind_ext_l, data_set_ext, foldl_open_property_filter.
Qed.

(** X2.  When a name occurs several times among the properties, the last
    occurrence decides: if [open] returns a channel for a property list that
    ends in [kv], a [UInt32] under "sendBufferSize" (or "recvBufferSize") is
    the size the channel data hold and the size of the allocated buffer, and
    a [String] under "mqttClientId" is the string of the configuration the
    client identifier points to. *)
Theorem open_uses_the_last_property a cfg kv w p w' :
  UA_PubSubChannelMQTT_open a
    (with_properties cfg (connectionProperties cfg ++ [kv])) w = Some (Some p, w') →
  ∃ h c d,
    channel_at w' p h c d ∧
    (∀ v, name (key kv) = "sendBufferSize" → value kv = VariantUInt32 v →
          mqttSendBufferSize d = v ∧ buffer_ok w' v (mqttSendBuffer d)) ∧
    (∀ v, name (key kv) = "recvBufferSize" → value kv = VariantUInt32 v →
          mqttRecvBufferSize d = v ∧ buffer_ok w' v (mqttRecvBuffer d)) ∧
    (∀ s, name (key kv) = "mqttClientId" → value kv = VariantString s →
          mqttClientId d = Some (DataOfProperty s)).
Proof.
  intros (address & h & d & cn & Ha & _ & _ & _ & Hch & Hsame & Hrb & Hsb & _)%open_Some.
  destruct Hsame as (_ & Hr & Hs & Hid).
  unfold resolved_config, with_properties in Hr, Hs, Hid. simpl in Hr, Hs, Hid.
  rewrite foldl_app in Hr, Hs, Hid. simpl in Hr, Hs, Hid.
  eexists h, _, d. split; [done|]. unfold open_property in Hr, Hs, Hid.
  split; [|split].
  - intros v Hk Hv. rewrite Hk, Hv in Hs. simpl in Hs.
    rewrite Hs in *. done.
  - intros v Hk Hv. rewrite Hk, Hv in Hr. simpl in Hr.
    rewrite Hr in *. done.
  - intros s Hk Hv. rewrite Hk, Hv in Hid. by simpl in Hid.
Qed.

End PropertyParsing.

Section Operations.
Context `{!HeaderConstants}.

Lemma not_ready_eval w p c settings cb buf answer :
  heap w !! p = Some (BlockChannel c) →
  state c ≠ UA_PUBSUB_CHANNEL_RDY →
  UA_PubSubChannelMQTT_regist answer (Some p) settings cb w
    = Some (UA_STATUSCODE_BADCONNECTIONCLOSED, w) ∧
  UA_PubSubChannelMQTT_unregist answer (Some p) settings w
    = Some (UA_STATUSCODE_BADCONNECTIONCLOSED, w) ∧
  UA_PubSubChannelMQTT_send answer (Some p) settings buf w
    = Some (UA_STATUSCODE_BADCONNECTIONCLOSED, w).
Proof.
  intros Hp Hst. destruct c as [st hd]; simpl in Hst.
  unfold UA_PubSubChannelMQTT_regist, UA_PubSubChannelMQTT_unregist,
    UA_PubSubChannelMQTT_send.
  repeat split; by msteps.
Qed.

(** X3.  On a channel that is not Ready (Error or Closed), [regist],
    [unregist] and [send] return [UA_STATUSCODE_BADCONNECTIONCLOSED] and do
    nothing else: no call of the adapter, the callback is not stored and the
    state stays as it is, whatever the settings. *)
Theorem operations_fail_fast_when_not_ready w p c settings cb buf answer :
  heap w !! p = Some (BlockChannel c) →
  state c ≠ UA_PUBSUB_CHANNEL_RDY →
  UA_PubSubChannelMQTT_regist answer (Some p) settings cb w
    = Some (UA_STATUSCODE_BADCONNECTIONCLOSED, w) ∧
  UA_PubSubChannelMQTT_unregist answer (Some p) settings w
    = Some (UA_STATUSCODE_BADCONNECTIONCLOSED, w) ∧
  UA_PubSubChannelMQTT_send answer (Some p) settings buf w
    = Some (UA_STATUSCODE_BADCONNECTIONCLOSED, w).
Proof. apply not_ready_eval. Qed.

(** X4.  [yield] on a channel in the Error state returns
    [UA_STATUSCODE_BADINTERNALERROR] without calling the adapter.  In any
    other state (Ready, and Closed as well) it calls [yieldMqtt] once with
    the timeout, returns its status, and puts the channel in the Error state
    exactly when that status is not [UA_STATUSCODE_GOOD]. *)
Theorem yield_pumps_unless_error w p h c d timeout answer :
  channel_at w p h c d →
  (state c = UA_PUBSUB_CHANNEL_ERROR →
   UA_PubSubChannelMQTT_yield answer (Some p) timeout w
     = Some (UA_STATUSCODE_BADINTERNALERROR, w)) ∧
  (state c ≠ UA_PUBSUB_CHANNEL_ERROR →
   ∃ w', UA_PubSubChannelMQTT_yield answer (Some p) timeout w = Some (answer, w') ∧
         calls w' = CallYield h timeout :: calls w ∧
         heap w' = if decide (answer = UA_STATUSCODE_GOOD) then heap w
                   else <[p := BlockChannel (set_state UA_PUBSUB_CHANNEL_ERROR c)]> (heap w)).
Proof.
  intros (Hp & Hh & Hd). destruct c as [st hd]; simpl in Hh; subst.
  unfold UA_PubSubChannelMQTT_yield, yieldMqtt. split; intros Hst; simpl in Hst.
  - subst. by msteps.
  - destruct (decide (answer = UA_STATUSCODE_GOOD)) as [Hg|Hg].
    + msteps. rewrite mret_eval. by eexists.
    + msteps. rewrite mret_eval. by eexists.
Qed.

Lemma send_eval w p h c d data buf answer :
  channel_at w p h c d →
  state c = UA_PUBSUB_CHANNEL_RDY →
  let settings := Some (ExtDecoded (DecodedBrokerWriterGroupTransport data) false) in
  let qos := (UA_uaQos_toMqttQos (requestedDeliveryGuarantee data) 0).2 in
  ∃ w', UA_PubSubChannelMQTT_send answer (Some p) settings buf w = Some (answer, w') ∧
        calls w' = CallPublish h (queueName data) buf qos :: calls w ∧
        heap w' = if decide (answer = UA_STATUSCODE_GOOD) then heap w
                  else <[p := BlockChannel (set_state UA_PUBSUB_CHANNEL_ERROR c)]> (heap w).
Proof.
  intros (Hp & Hh & Hd) Hst settings qos.
  destruct c as [st hd]; simpl in Hh, Hst; subst. unfold settings, qos.
  pose proof good_is_zero as Hg.
  unfold UA_PubSubChannelMQTT_send, publishMqtt. msteps.
  rewrite brokerTransportSettings_decoded. msteps.
  destruct (decide (answer = UA_STATUSCODE_GOOD)) as [Hz|Hz].
  - assert (answer = 0) by congruence.
    msteps. rewrite mret_eval. by eexists.
  - assert (answer ≠ 0) by congruence.
    msteps. rewrite mret_eval. by eexists.
Qed.

(** X5.  [send] on a Ready channel with broker settings publishes the
    buffer once, on the topic of the settings and with the translated QoS,
    and returns the status of [publishMqtt]; the heap is unchanged when
    that status is good, and only the state of the channel changes, to
    Error, when it is not. *)
Theorem send_publishes_and_records_failure w p h c d data buf answer :
  channel_at w p h c d →
  state c = UA_PUBSUB_CHANNEL_RDY →
  let settings := Some (ExtDecoded (DecodedBrokerWriterGroupTransport data) false) in
  let qos := (UA_uaQos_toMqttQos (requestedDeliveryGuarantee data) 0).2 in
  ∃ w', UA_PubSubChannelMQTT_send answer (Some p) settings buf w = Some (answer, w') ∧
        calls w' = CallPublish h (queueName data) buf qos :: calls w ∧
        heap w' = if decide (answer = UA_STATUSCODE_GOOD) then heap w
                  else <[p := BlockChannel (set_state UA_PUBSUB_CHANNEL_ERROR c)]> (heap w).
Proof. apply send_eval. Qed.

Lemma regist_eval w p h c d data cb answer :
  channel_at w p h c d →
  state c = UA_PUBSUB_CHANNEL_RDY →
  let settings := Some (ExtDecoded (DecodedBrokerWriterGroupTransport data) false) in
  let qos := (UA_uaQos_toMqttQos (requestedDeliveryGuarantee data) 0).2 in
  ∃ w', UA_PubSubChannelMQTT_regist answer (Some p) settings cb w = Some (answer, w') ∧
        calls w' = CallSubscribe h (queueName data) qos :: calls w ∧
        heap w' = <[h := BlockChannelData (set_callback cb d)]> (heap w).
Proof.
  intros (Hp & Hh & Hd) Hst settings qos.
  destruct c as [st hd]; simpl in Hh, Hst; subst. unfold settings, qos.
  unfold UA_PubSubChannelMQTT_regist, subscribeMqtt. msteps.
  rewrite brokerTransportSettings_decoded. msteps.
  rewrite mret_eval. by eexists.
Qed.

(** X6.  [regist] on a Ready channel with broker settings subscribes once
    to the topic of the settings with the translated QoS and returns the
    status of [subscribeMqtt]; the only change of the heap is the stored
    callback.  Unlike [send], a failed subscription leaves the channel
    Ready. *)
Theorem regist_subscribes_and_keeps_state w p h c d data cb answer :
  channel_at w p h c d →
  state c = UA_PUBSUB_CHANNEL_RDY →
  let settings := Some (ExtDecoded (DecodedBrokerWriterGroupTransport data) false) in
  let qos := (UA_uaQos_toMqttQos (requestedDeliveryGuarantee data) 0).2 in
  ∃ w', UA_PubSubChannelMQTT_regist answer (Some p) settings cb w = Some (answer, w') ∧
        calls w' = CallSubscribe h (queueName data) qos :: calls w ∧
        heap w' = <[h := BlockChannelData (set_callback cb d)]> (heap w).
Proof. apply regist_eval. Qed.

(** X7.  [unregist] on a Ready channel never changes the heap: the callback
    stored by [regist] stays and the state stays Ready, also when the
    adapter fails.  With broker settings it calls [unSubscribeMqtt] once on
    their topic and returns its status; otherwise it returns
    [UA_STATUSCODE_BADARGUMENTSMISSING] without a call. *)
Theorem unregist_leaves_heap_unchanged w p h c d settings answer :
  channel_at w p h c d →
  state c = UA_PUBSUB_CHANNEL_RDY →
  ∃ r w', UA_PubSubChannelMQTT_unregist answer (Some p) settings w = Some (r, w') ∧
          heap w' = heap w ∧
          match brokerTransportSettings settings with
          | Some data => r = answer ∧ calls w' = CallUnSubscribe h (queueName data) :: calls w
          | None => r = UA_STATUSCODE_BADARGUMENTSMISSING ∧ calls w' = calls w
          end.
Proof.
  intros (Hp & Hh & Hd) Hst.
  destruct c as [st hd]; simpl in Hh, Hst; subst.
  unfold UA_PubSubChannelMQTT_unregist, unSubscribeMqtt. msteps.
  destruct (brokerTransportSettings settings) as [data|].
  - msteps. rewrite mret_eval. by eexists _, _.
  - by eexists _, _.
Qed.


(** X8.  On a Ready channel, the QoS level the adapter receives from
    [regist] and from [send] is 0 for BestEffort, 1 for AtLeastOnce and 2
    for AtMostOnce. *)
Theorem named_guarantees_reach_the_adapter w p h c d guarantee level topic cb buf answer :
  channel_at w p h c d →
  state c = UA_PUBSUB_CHANNEL_RDY →
  (guarantee, level) ∈
    [ (UA_BROKERTRANSPORTQUALITYOFSERVICE_BESTEFFORT, 0);
      (UA_BROKERTRANSPORTQUALITYOFSERVICE_ATLEASTONCE, 1);
      (UA_BROKERTRANSPORTQUALITYOFSERVICE_ATMOSTONCE, 2) ] →
  let settings :=
    Some (ExtDecoded (DecodedBrokerWriterGroupTransport
            {| queueName := topic; requestedDeliveryGuarantee := guarantee |}) false) in
  (∃ w', UA_PubSubChannelMQTT_regist answer (Some p) settings cb w = Some (answer, w') ∧
         calls w' = CallSubscribe h topic level :: calls w) ∧
  (∃ w', UA_PubSubChannelMQTT_send answer (Some p) settings buf w = Some (answer, w') ∧
         calls w' = CallPublish h topic buf level :: calls w).
Proof.
  intros Hch Hst Hin settings.
  assert ((UA_uaQos_toMqttQos guarantee 0).2 = level) as Hq.
  { destruct qos_labels_ne as (N1 & N2 & N3).
    rewrite !elem_of_cons in Hin.
    destruct Hin as [[= -> ->]|[[= -> ->]|[[= -> ->]|Hin]]];
      [| | |by apply elem_of_nil in Hin].
    all: unfold UA_uaQos_toMqttQos; simpl; repeat case_decide; congruence. }
  split.
  - destruct (regist_eval w p h c d
                {| queueName := topic; requestedDeliveryGuarantee := guarantee |}
                cb answer Hch Hst) as (w' & E & Hc & _).
    cbn [queueName requestedDeliveryGuarantee] in Hc. rewrite Hq in Hc. eauto.
  - destruct (send_eval w p h c d
                {| queueName := topic; requestedDeliveryGuarantee := guarantee |}
                buf answer Hch Hst) as (w' & E & Hc & _).
    cbn [queueName requestedDeliveryGuarantee] in Hc. rewrite Hq in Hc. eauto.
Qed.

Lemma UA_uaQos_toMqttQos_range uaQos qos :
  0 ≤ qos ≤ 2 → 0 ≤ (UA_uaQos_toMqttQos uaQos qos).2 ≤ 2.
Proof. intros. unfold UA_uaQos_toMqttQos. simpl. repeat case_decide; lia. Qed.

Lemma step_qos_in_range channel op w r w' :
  step channel op w = Some (r, w') →
  Forall qos_in_range (calls w) → Forall qos_in_range (calls w').
Proof.
  pose proof (UA_uaQos_toMqttQos_range) as Hq.
  destruct op; simpl; intros Hs Hw.
  - unfold UA_PubSubChannelMQTT_regist, subscribeMqtt in Hs. minv.
    all: norm_world; try done.
    all: match goal with H : calls ?w = _ |- _ => rewrite H end.
    all: norm_world; constructor; [simpl; apply Hq; lia | done].
  - unfold UA_PubSubChannelMQTT_unregist, unSubscribeMqtt in Hs. minv.
    all: norm_world; try done.
    all: match goal with H : calls ?w = _ |- _ => rewrite H end.
    all: norm_world; by constructor.
  - unfold UA_PubSubChannelMQTT_send, publishMqtt in Hs. minv.
    all: norm_world; try done.
    all: match goal with H : calls ?w = _ |- _ => rewrite H end.
    all: norm_world; constructor; [simpl; apply Hq; lia | done].
  - unfold UA_PubSubChannelMQTT_yield, yieldMqtt in Hs. minv.
    all: norm_world; try done.
    all: match goal with H : calls ?w = _ |- _ => rewrite H end.
    all: norm_world; by constructor.
  - unfold UA_PubSubChannelMQTT_close, disconnectMqtt in Hs. minv.
    all: norm_world; try done.
    all: match goal with H : calls ?w = _ |- _ => rewrite H end.
    all: norm_world; by constructor.
Qed.

(** X9.  Every sequence of operations on a channel keeps the QoS levels
    handed to the adapter between 0 and 2: if all subscribe and publish
    calls made so far carry such a level, so do all calls after the
    sequence, whatever delivery guarantees the settings name. *)
Theorem qos_levels_stay_in_range channel ops w rs w' :
  run channel ops w = Some (rs, w') →
  Forall qos_in_range (calls w) →
  Forall qos_in_range (calls w').
Proof.
  revert w rs. induction ops as [|op ops IH]; simpl; intros w rs Hr Hw.
  - apply mret_Some in Hr as [_ ->]. done.
  - apply bind_Some in Hr as (r & w1 & Hs & Hr).
    apply bind_Some in Hr as (rs1 & w2 & Hr & Hm).
    apply mret_Some in Hm as [_ ->].
    eauto using step_qos_in_range.
Qed.

Lemma step_open_channel w p h c d op :
  channel_at w p h c d →
  ¬ is_close op →
  ∃ r w' c' d',
    step (Some p) op w = Some (r, w') ∧
    channel_at w' p h c' d' ∧
    same_but_callback d d' ∧
    (∀ l, l ≠ p → l ≠ h → heap w' !! l = heap w !! l).
Proof.
  intros (Hp & Hh & Hd) Hop.
  assert (p ≠ h) by congruence. assert (h ≠ p) by congruence.
  assert (same_but_callback d d) as Hrefl by (by destruct d).
  destruct c as [st hd]; simpl in Hh; subst.
  destruct op as [ts cb answer|ts answer|ts buf answer|timeout answer|]; simpl;
    [| | | |done].
  - unfold UA_PubSubChannelMQTT_regist, subscribeMqtt.
    destruct st; msteps.
    2,3: rewrite mret_eval; eexists _, _, _, _; split; [done|];
         unfold channel_at; by repeat split.
    destruct (brokerTransportSettings ts) as [data|]; msteps.
    all: rewrite mret_eval; eexists _, _, _, _; split; [done|].
    all: unfold channel_at; norm_world.
    all: split; [map_lookup; by repeat split|].
    all: split; [done|].
    all: intros l ? ?; by map_lookup.
  - unfold UA_PubSubChannelMQTT_unregist, unSubscribeMqtt.
    destruct st; msteps.
    2,3: rewrite mret_eval; eexists _, _, _, _; split; [done|];
         unfold channel_at; by repeat split.
    destruct (brokerTransportSettings ts) as [data|]; msteps.
    all: rewrite mret_eval; eexists _, _, _, _; split; [done|].
    all: unfold channel_at; by repeat split.
  - unfold UA_PubSubChannelMQTT_send, publishMqtt.
    destruct st; msteps.
    2,3: rewrite mret_eval; eexists _, _, _, _; split; [done|];
         unfold channel_at; by repeat split.
    destruct (brokerTransportSettings ts) as [data|]; msteps.
    2: rewrite mret_eval; eexists _, _, _, _; split; [done|];
       unfold channel_at; by repeat split.
    destruct (decide (answer = 0)); msteps.
    all: rewrite mret_eval; eexists _, _, _, _; split; [done|].
    all: unfold channel_at; norm_world.
    all: split; [map_lookup; by repeat split|].
    all: split; [done|].
    all: intros l ? ?; by map_lookup.
  - unfold UA_PubSubChannelMQTT_yield, yieldMqtt.
    destruct st; msteps.
    2: rewrite mret_eval; eexists _, _, _, _; split; [done|];
       unfold channel_at; by repeat split.
    all: destruct (decide (answer = UA_STATUSCODE_GOOD)); msteps.
    all: rewrite mret_eval; eexists _, _, _, _; split; [done|].
    all: unfold channel_at; norm_world.
    all: split; [map_lookup; by repeat split|].
    all: split; [done|].
    all: intros l ? ?; by map_lookup.
Qed.

Lemma same_but_callback_trans d d1 d2 :
  same_but_callback d d1 → same_but_callback d1 d2 → same_but_callback d d2.
Proof.
  unfold same_but_callback. intros H1 H2. rewrite H2, H1. by destruct d.
Qed.

Lemma run_open_channel w p h c d ops :
  channel_at w p h c d →
  Forall (λ op, ¬ is_close op) ops →
  ∃ rs w' c' d',
    run (Some p) ops w = Some (rs, w') ∧
    length rs = length ops ∧
    channel_at w' p h c' d' ∧
    same_but_callback d d' ∧
    (∀ l, l ≠ p → l ≠ h → heap w' !! l = heap w !! l).
Proof.
  intros Hch Hops. revert w c d Hch.
  induction Hops as [|op ops Hop Hops IH]; intros w c d Hch; simpl.
  - exists [], w, c, d. destruct Hch as (? & ? & ?).
    split; [done|]. split; [done|]. split; [done|].
    split; [unfold same_but_callback; by destruct d|done].
  - destruct (step_open_channel w p h c d op Hch Hop)
      as (r & w1 & c1 & d1 & Hs & Hch1 & Hd1 & Hf1).
    destruct (IH w1 c1 d1 Hch1) as (rs & w2 & c2 & d2 & Hr & Hlen & Hch2 & Hd2 & Hf2).
    exists (r :: rs), w2, c2, d2.
    split. { erewrite bind_eval by done. erewrite bind_eval by done. done. }
    split; [simpl; by rewrite Hlen|]. split; [done|]. split.
    + by apply (same_but_callback_trans d d1 d2).
    + intros l ? ?. rewrite Hf2, Hf1 by done. done.
Qed.

(** X10.  On a channel with its channel data, every sequence of [regist],
    [unregist], [send] and [yield] has a defined result, with one status
    per operation, whatever the settings and the answers of the adapter;
    afterwards the channel is still there with the same handle, and its
    channel data are unchanged except for the callback. *)
Theorem operations_are_defined_on_a_channel w p h c d ops :
  channel_at w p h c d →
  Forall (λ op, ¬ is_close op) ops →
  ∃ rs w' c' d',
    run (Some p) ops w = Some (rs, w') ∧
    length rs = length ops ∧
    channel_at w' p h c' d' ∧
    same_but_callback d d'.
Proof.
  intros Hch Hops.
  destruct (run_open_channel w p h c d ops Hch Hops)
    as (rs & w' & c' & d' & ? & ? & ? & ? & _).
  by exists rs, w', c', d'.
Qed.

(** X11.  A sequence of [regist], [unregist], [send] and [yield] on a
    channel changes no block of the heap other than the channel and its
    channel data: buffers, connection and other channels are untouched. *)
Theorem operations_touch_only_their_channel w p h c d ops rs w' l :
  channel_at w p h c d →
  Forall (λ op, ¬ is_close op) ops →
  run (Some p) ops w = Some (rs, w') →
  l ≠ p → l ≠ h →
  heap w' !! l = heap w !! l.
Proof.
  intros Hch Hops Hr Hp Hh.
  destruct (run_open_channel w p h c d ops Hch Hops)
    as (rs1 & w1 & c' & d' & Hr1 & _ & _ & _ & Hf).
  rewrite Hr1 in Hr. injection Hr as _ <-. by apply Hf.
Qed.

(** X12.  The Error state is left by no operation but [close]: on a
    channel in the Error state every sequence of [regist], [unregist],
    [send] and [yield] changes nothing, calls the adapter not once, and
    returns [UA_STATUSCODE_BADINTERNALERROR] for each [yield] and
    [UA_STATUSCODE_BADCONNECTIONCLOSED] for each other operation. *)
Theorem error_state_fails_fast w p c ops :
  heap w !! p = Some (BlockChannel c) →
  state c = UA_PUBSUB_CHANNEL_ERROR →
  Forall (λ op, ¬ is_close op) ops →
  run (Some p) ops w = Some (error_status <$> ops, w).
Proof.
  intros Hp Hst Hops.
  assert (state c ≠ UA_PUBSUB_CHANNEL_RDY) as Hn by congruence.
  induction Hops as [|op ops Hop Hops IH]; simpl; [done|].
  assert (step (Some p) op w = Some (error_status op, w)) as Hs.
  { destruct op as [ts cb answer|ts answer|ts buf answer|timeout answer|]; simpl.
    - apply (not_ready_eval w p c ts cb "" answer Hp Hn).
    - apply (not_ready_eval w p c ts None "" answer Hp Hn).
    - apply (not_ready_eval w p c ts None buf answer Hp Hn).
    - destruct c as [st hd]; simpl in Hst; subst.
      unfold UA_PubSubChannelMQTT_yield. by msteps.
    - done. }
  erewrite bind_eval by done. erewrite bind_eval by done. done.
Qed.

End Operations.

Section OpenAndClose.
Context `{!HeaderConstants}.

(** X13.  When [open] cannot get as far as [connectMqtt] (the address is
    not a [NetworkAddressUrl], or one of the allocations it needs fails),
    it returns NULL, has called no function of the adapter, and has freed
    what it had allocated: the heap is the one it started from. *)
Theorem open_failure_before_connect_has_no_effect a cfg w :
  (∀ address, config_address cfg = VariantNetworkAddressUrl address →
              ¬ reaches_connect a (resolved_config address cfg)) →
  ∃ w', UA_PubSubChannelMQTT_open a cfg w = Some (NULL, w') ∧
        calls w' = calls w ∧ heap w' = heap w.
Proof. apply open_early_failure. Qed.

(** X14.  Whenever [open] returns a channel: the address of the
    configuration was a [NetworkAddressUrl], every allocation needed
    succeeded and [connectMqtt] answered good; [connectMqtt] is the only
    adapter call made; the channel is new, Ready, and its handle holds the
    address, the buffer sizes and the client identifier pointer of the
    resolved configuration (the address of a variable of [open] when no
    property sets the identifier), buffers allocated at their sizes and no
    callback; and every block that was live before is unchanged. *)
Theorem open_returns_ready_channel a cfg w p w' :
  UA_PubSubChannelMQTT_open a cfg w = Some (Some p, w') →
  ∃ address h d,
    config_address cfg = VariantNetworkAddressUrl address ∧
    reaches_connect a (resolved_config address cfg) ∧
    (connect_answer a).1 = UA_STATUSCODE_GOOD ∧
    calls w' = CallConnect h :: calls w ∧
    channel_at w' p h {| state := UA_PUBSUB_CHANNEL_RDY; handle := Some h |} d ∧
    same_config d (resolved_config address cfg) ∧
    buffer_ok w' (mqttRecvBufferSize d) (mqttRecvBuffer d) ∧
    buffer_ok w' (mqttSendBufferSize d) (mqttSendBuffer d) ∧
    callback d = None ∧
    heap w !! p = None ∧
    heap w ⊆ heap w'.
Proof.
  intros (address & h & d & cn & ? & ? & ? & ? & ? & ? & ? & ? & _ & _ & ? & ? & ?)%open_Some.
  by exists address, h, d.
Qed.

(** X15.  [open] has a defined result on every configuration, in every
    world and whatever its allocations and the broker answer (on no path it
    frees a block that is not live), and when the result is NULL the heap
    is the one it started from. *)
Theorem open_is_defined_and_leaks_nothing_on_failure a cfg w :
  ∃ r w', UA_PubSubChannelMQTT_open a cfg w = Some (r, w') ∧
          (r = NULL → heap w' = heap w).
Proof. apply open_total. Qed.

(** X16.  When both buffer sizes of the configuration resolve to 0, [open]
    asks for no buffer: it succeeds as soon as the two structures are
    allocated and the broker accepts, whatever an allocation of a buffer
    would have answered, and both buffer pointers stay NULL. *)
Theorem open_with_zero_sizes_needs_no_buffer a cfg address w :
  config_address cfg = VariantNetworkAddressUrl address →
  mqttRecvBufferSize (resolved_config address cfg) = 0 →
  mqttSendBufferSize (resolved_config address cfg) = 0 →
  calloc_channelData_ok a = true →
  calloc_newChannel_ok a = true →
  (connect_answer a).1 = UA_STATUSCODE_GOOD →
  ∃ p h d w',
    UA_PubSubChannelMQTT_open a cfg w = Some (Some p, w') ∧
    channel_at w' p h {| state := UA_PUBSUB_CHANNEL_RDY; handle := Some h |} d ∧
    mqttRecvBuffer d = NULL ∧ mqttSendBuffer d = NULL.
Proof.
  intros Ha Hr Hs H1 H2 Hc.
  destruct (open_ready a cfg address w Ha) as
    (p & h & d & cn & w' & E & _ & Hch & Hsame & Hrb & Hsb & _); [|done|].
  { unfold reaches_connect. rewrite Hr, Hs. repeat split; try done; lia. }
  destruct Hsame as (_ & Er & Es & _).
  unfold buffer_ok in *. rewrite Er, Hr in Hrb. rewrite Es, Hs in Hsb.
  rewrite decide_False in Hrb, Hsb by lia.
  by exists p, h, d, w'.
Qed.

Ltac open_run Ha H1 H2 H3 H4 :=
  unfold UA_PubSubChannelMQTT_open; rewrite Ha, H1, H2;
  (let l := fresh "l" in fresh_addr l); msteps;
  (let l := fresh "l" in fresh_addr l); msteps;
  unfold open_recvBuffer; msteps;
  (case_decide;
   [ rewrite H3 by done; (let l := fresh "l" in fresh_addr l); msteps | ]);
  unfold open_sendBuffer; msteps;
  (case_decide;
   [ rewrite H4 by done; (let l := fresh "l" in fresh_addr l); msteps | ]);
  unfold open_connect, connectMqtt; msteps;
  (let l := fresh "l" in fresh_addr l); msteps.

(** X17.  [open] followed by [close]: both succeed, the adapter sees one
    connect and then one disconnect, both for the channel data of the
    channel; afterwards the channel and its channel data are freed, and
    every block that was live before [open] is as it was. *)
Theorem open_then_close_frees_the_channel a cfg address w :
  config_address cfg = VariantNetworkAddressUrl address →
  reaches_connect a (resolved_config address cfg) →
  (connect_answer a).1 = UA_STATUSCODE_GOOD →
  ∃ p h c d w1 w2,
    UA_PubSubChannelMQTT_open a cfg w = Some (Some p, w1) ∧
    channel_at w1 p h c d ∧
    UA_PubSubChannelMQTT_close (Some p) w1 = Some (UA_STATUSCODE_GOOD, w2) ∧
    calls w2 = CallDisconnect h :: CallConnect h :: calls w ∧
    heap w2 !! p = None ∧ heap w2 !! h = None ∧
    heap w ⊆ heap w2.
Proof.
  intros Ha (H1 & H2 & H3 & H4) Hc.
  destruct (open_property_fields (connectionProperties cfg) (default_channelData address))
    as (_ & Hsb & Hrb & _).
  unfold resolved_config in *. simpl in Hsb, Hrb.
  open_run Ha H1 H2 H3 H4.
  all: rewrite mret_eval; eexists _, _, _, _, _, _; split; [reflexivity|].
  all: split; [unfold channel_at; norm_world; split; [by map_lookup|];
               split; [reflexivity|]; by map_lookup|].
  all: unfold UA_PubSubChannelMQTT_close, disconnectMqtt.
  all: repeat (msteps; rewrite ?Hrb, ?Hsb).
  all: rewrite mret_eval; split; [reflexivity|].
  all: split; [reflexivity|].
  all: norm_world.
  all: split; [apply lookup_delete_eq|].
  all: split; [rewrite lookup_delete_ne by done; apply lookup_delete_eq|].
  all: match goal with
       | |- ?m0 ⊆ ?m => assert (m = m0) as -> by heap_eq
       end.
  all: done.
Qed.
Lemma open_handle_fresh a cfg w p w' h c d :
  UA_PubSubChannelMQTT_open a cfg w = Some (Some p, w') →
  channel_at w' p h c d →
  heap w !! h = None.
Proof.
  intros E (Hp & Hh & Hd).
  destruct (open_Some a cfg w p w' E)
    as (address & _ & _ & _ & Ha & (H1 & H2 & H3 & H4) & Hc & _).
  unfold resolved_config in *.
  revert E. open_run Ha H1 H2 H3 H4.
  all: rewrite mret_eval; intros [= <- <-].
  all: revert Hp; norm_world; map_lookup; intros [= <-].
  all: simpl in Hh; clear Hd; by simplify_eq.
Qed.

(** X18.  Two channels opened one after the other are distinct, and no
    sequence of [regist], [unregist], [send] and [yield] on the second
    changes the first: it is still Ready, with the same handle and the same
    channel data. *)
Theorem channels_are_independent a1 cfg1 a2 cfg2 w p1 w1 p2 w2 ops rs w3 :
  UA_PubSubChannelMQTT_open a1 cfg1 w = Some (Some p1, w1) →
  UA_PubSubChannelMQTT_open a2 cfg2 w1 = Some (Some p2, w2) →
  Forall (λ op, ¬ is_close op) ops →
  run (Some p2) ops w2 = Some (rs, w3) →
  p1 ≠ p2 ∧
  ∃ h1 d1,
    channel_at w1 p1 h1 {| state := UA_PUBSUB_CHANNEL_RDY; handle := Some h1 |} d1 ∧
    channel_at w3 p1 h1 {| state := UA_PUBSUB_CHANNEL_RDY; handle := Some h1 |} d1.
Proof.
  intros E1 E2 Hops Hr.
  destruct (open_Some _ _ _ _ _ E1)
    as (_ & h1 & d1 & _ & _ & _ & _ & _ & Hch1 & _).
  destruct (open_Some _ _ _ _ _ E2)
    as (_ & h2 & d2 & _ & _ & _ & _ & _ & Hch2 & _ & _ & _ & _ & _ & _ & Hp2 & Hsub).
  pose proof (open_handle_fresh _ _ _ _ _ _ _ _ E2 Hch2) as Hh2.
  destruct Hch1 as (Hp1 & Hh1 & Hd1).
  assert (p1 ≠ p2) by congruence. assert (h1 ≠ p2) by congruence.
  assert (p1 ≠ h2) by congruence. assert (h1 ≠ h2) by congruence.
  split; [done|]. exists h1, d1. split; [done|].
  destruct (run_open_channel w2 p2 h2 _ d2 ops Hch2 Hops)
    as (rs' & w3' & c' & d' & Hr' & _ & _ & _ & Hf).
  rewrite Hr' in Hr. injection Hr as _ <-.
  split; [|split; [done|]].
  - rewrite Hf by done. by eapply lookup_weaken.
  - rewrite Hf by done. by eapply lookup_weaken.
Qed.

End OpenAndClose.

(** ** The properties of the operations on concrete inputs *)

Lemma open_uses_the_last_property_witness :
  let a := all_ok (UA_STATUSCODE_GOOD, false) in
  let cfg := with_properties sample_config full_properties in
  (∃ p w',
     UA_PubSubChannelMQTT_open a
       (with_properties cfg
          (connectionProperties cfg ++ [property "sendBufferSize" (VariantUInt32 20)]))
       empty_world = Some (Some p, w') ∧
     ∃ h c d, channel_at w' p h c d ∧
              mqttSendBufferSize d = 20 ∧ buffer_ok w' 20 (mqttSendBuffer d)) ∧
  (∃ p w',
     UA_PubSubChannelMQTT_open a
       (with_properties cfg
          (connectionProperties cfg ++ [property "recvBufferSize" (VariantUInt32 30)]))
       empty_world = Some (Some p, w') ∧
     ∃ h c d, channel_at w' p h c d ∧
              mqttRecvBufferSize d = 30 ∧ buffer_ok w' 30 (mqttRecvBuffer d)) ∧
  (∃ p w',
     UA_PubSubChannelMQTT_open a
       (with_properties cfg
          (connectionProperties cfg ++ [property "mqttClientId" (VariantString "c2")]))
       empty_world = Some (Some p, w') ∧
     ∃ h c d, channel_at w' p h c d ∧ mqttClientId d = Some (DataOfProperty "c2")).
Proof.
  intros a cfg. split; [|split].
  - eexists _, _. split; [vm_compute; reflexivity|].
    match goal with
    | |- ∃ h c d, channel_at ?w' ?p _ _ _ ∧ _ =>
        destruct (open_uses_the_last_property a cfg
                    (property "sendBufferSize" (VariantUInt32 20)) empty_world p w')
          as (h & c & d & Hch & Hs & _ & _); [vm_compute; reflexivity|]
    end.
    exists h, c, d. split; [exact Hch|]. apply Hs; reflexivity.
  - eexists _, _. split; [vm_compute; reflexivity|].
    match goal with
    | |- ∃ h c d, channel_at ?w' ?p _ _ _ ∧ _ =>
        destruct (open_uses_the_last_property a cfg
                    (property "recvBufferSize" (VariantUInt32 30)) empty_world p w')
          as (h & c & d & Hch & _ & Hr & _); [vm_compute; reflexivity|]
    end.
    exists h, c, d. split; [exact Hch|]. apply Hr; reflexivity.
  - eexists _, _. split; [vm_compute; reflexivity|].
    match goal with
    | |- ∃ h c d, channel_at ?w' ?p _ _ _ ∧ _ =>
        destruct (open_uses_the_last_property a cfg
                    (property "mqttClientId" (VariantString "c2")) empty_world p w')
          as (h & c & d & Hch & _ & _ & Hi); [vm_compute; reflexivity|]
    end.
    exists h, c, d. split; [exact Hch|]. apply Hi; reflexivity.
Defined.

Lemma operations_fail_fast_when_not_ready_witness :
  heap sample_world_error !! 2%positive
    = Some (BlockChannel (set_state UA_PUBSUB_CHANNEL_ERROR sample_channel)) ∧
  state (set_state UA_PUBSUB_CHANNEL_ERROR sample_channel) ≠ UA_PUBSUB_CHANNEL_RDY ∧
  UA_PubSubChannelMQTT_regist 0 (Some 2%positive) (sample_settings 2) (Some 7%nat)
    sample_world_error = Some (UA_STATUSCODE_BADCONNECTIONCLOSED, sample_world_error) ∧
  UA_PubSubChannelMQTT_unregist 0 (Some 2%positive) (sample_settings 2) sample_world_error
    = Some (UA_STATUSCODE_BADCONNECTIONCLOSED, sample_world_error) ∧
  UA_PubSubChannelMQTT_send 0 (Some 2%positive) (sample_settings 2) "payload"
    sample_world_error = Some (UA_STATUSCODE_BADCONNECTIONCLOSED, sample_world_error).
Proof.
  split; [reflexivity|]. split; [simpl; discriminate|].
  apply (operations_fail_fast_when_not_ready sample_world_error 2
           (set_state UA_PUBSUB_CHANNEL_ERROR sample_channel));
    [reflexivity | simpl; discriminate].
Defined.

Lemma yield_pumps_unless_error_witness :
  channel_at sample_world 2 1 sample_channel sample_data ∧
  (state sample_channel = UA_PUBSUB_CHANNEL_ERROR →
   UA_PubSubChannelMQTT_yield UA_STATUSCODE_BADINTERNALERROR (Some 2%positive) 10 sample_world
     = Some (UA_STATUSCODE_BADINTERNALERROR, sample_world)) ∧
  (state sample_channel ≠ UA_PUBSUB_CHANNEL_ERROR →
   ∃ w', UA_PubSubChannelMQTT_yield UA_STATUSCODE_BADINTERNALERROR (Some 2%positive) 10
           sample_world = Some (UA_STATUSCODE_BADINTERNALERROR, w') ∧
         calls w' = CallYield 1 10 :: calls sample_world ∧
         heap w' = if decide (UA_STATUSCODE_BADINTERNALERROR = UA_STATUSCODE_GOOD)
                   then heap sample_world
                   else <[2%positive :=
                            BlockChannel (set_state UA_PUBSUB_CHANNEL_ERROR sample_channel)]>
                          (heap sample_world)).
Proof.
  assert (Hc : channel_at sample_world 2 1 sample_channel sample_data)
    by (repeat split; reflexivity).
  split; [exact Hc|].
  apply (yield_pumps_unless_error sample_world 2 1 sample_channel sample_data 10
           UA_STATUSCODE_BADINTERNALERROR Hc).
Defined.

Lemma send_publishes_and_records_failure_witness :
  channel_at sample_world 2 1 sample_channel sample_data ∧
  state sample_channel = UA_PUBSUB_CHANNEL_RDY ∧
  ∃ w', UA_PubSubChannelMQTT_send UA_STATUSCODE_BADINTERNALERROR (Some 2%positive)
          (sample_settings 2) "payload" sample_world
          = Some (UA_STATUSCODE_BADINTERNALERROR, w') ∧
        calls w' = CallPublish 1 "t" "payload" (UA_uaQos_toMqttQos 2 0).2
                   :: calls sample_world ∧
        heap w' = if decide (UA_STATUSCODE_BADINTERNALERROR = UA_STATUSCODE_GOOD)
                  then heap sample_world
                  else <[2%positive :=
                           BlockChannel (set_state UA_PUBSUB_CHANNEL_ERROR sample_channel)]>
                         (heap sample_world).
Proof.
  assert (Hc : channel_at sample_world 2 1 sample_channel sample_data)
    by (repeat split; reflexivity).
  split; [exact Hc|]. split; [reflexivity|].
  apply (send_publishes_and_records_failure sample_world 2 1 sample_channel sample_data
           {| queueName := "t"; requestedDeliveryGuarantee := 2 |} "payload"
           UA_STATUSCODE_BADINTERNALERROR Hc).
  reflexivity.
Defined.

Lemma regist_subscribes_and_keeps_state_witness :
  channel_at sample_world 2 1 sample_channel sample_data ∧
  state sample_channel = UA_PUBSUB_CHANNEL_RDY ∧
  ∃ w', UA_PubSubChannelMQTT_regist UA_STATUSCODE_BADINTERNALERROR (Some 2%positive)
          (sample_settings 2) (Some 7%nat) sample_world
          = Some (UA_STATUSCODE_BADINTERNALERROR, w') ∧
        calls w' = CallSubscribe 1 "t" (UA_uaQos_toMqttQos 2 0).2 :: calls sample_world ∧
        heap w' = <[1%positive := BlockChannelData (set_callback (Some 7%nat) sample_data)]>
                    (heap sample_world).
Proof.
  assert (Hc : channel_at sample_world 2 1 sample_channel sample_data)
    by (repeat split; reflexivity).
  split; [exact Hc|]. split; [reflexivity|].
  apply (regist_subscribes_and_keeps_state sample_world 2 1 sample_channel sample_data
           {| queueName := "t"; requestedDeliveryGuarantee := 2 |} (Some 7%nat)
           UA_STATUSCODE_BADINTERNALERROR Hc).
  reflexivity.
Defined.

Lemma unregist_leaves_heap_unchanged_witness :
  channel_at sample_world 2 1 sample_channel sample_data ∧
  state sample_channel = UA_PUBSUB_CHANNEL_RDY ∧
  ∃ r w', UA_PubSubChannelMQTT_unregist UA_STATUSCODE_BADINTERNALERROR (Some 2%positive)
            (sample_settings 2) sample_world = Some (r, w') ∧
          heap w' = heap sample_world ∧
          match brokerTransportSettings (sample_settings 2) with
          | Some data =>
              r = UA_STATUSCODE_BADINTERNALERROR ∧
              calls w' = CallUnSubscribe 1 (queueName data) :: calls sample_world
          | None => r = UA_STATUSCODE_BADARGUMENTSMISSING ∧ calls w' = calls sample_world
          end.
Proof.
  assert (Hc : channel_at sample_world 2 1 sample_channel sample_data)
    by (repeat split; reflexivity).
  split; [exact Hc|]. split; [reflexivity|].
  apply (unregist_leaves_heap_unchanged sample_world 2 1 sample_channel sample_data
           (sample_settings 2) UA_STATUSCODE_BADINTERNALERROR Hc).
  reflexivity.
Defined.

Lemma named_guarantees_reach_the_adapter_witness :
  channel_at sample_world 2 1 sample_channel sample_data ∧
  state sample_channel = UA_PUBSUB_CHANNEL_RDY ∧
  (UA_BROKERTRANSPORTQUALITYOFSERVICE_ATLEASTONCE, 1) ∈
    [ (UA_BROKERTRANSPORTQUALITYOFSERVICE_BESTEFFORT, 0);
      (UA_BROKERTRANSPORTQUALITYOFSERVICE_ATLEASTONCE, 1);
      (UA_BROKERTRANSPORTQUALITYOFSERVICE_ATMOSTONCE, 2) ] ∧
  (∃ w', UA_PubSubChannelMQTT_regist 0 (Some 2%positive)
           (sample_settings UA_BROKERTRANSPORTQUALITYOFSERVICE_ATLEASTONCE) (Some 7%nat)
           sample_world = Some (0, w') ∧
         calls w' = CallSubscribe 1 "t" 1 :: calls sample_world) ∧
  (∃ w', UA_PubSubChannelMQTT_send 0 (Some 2%positive)
           (sample_settings UA_BROKERTRANSPORTQUALITYOFSERVICE_ATLEASTONCE) "payload"
           sample_world = Some (0, w') ∧
         calls w' = CallPublish 1 "t" "payload" 1 :: calls sample_world).
Proof.
  assert (Hc : channel_at sample_world 2 1 sample_channel sample_data)
    by (repeat split; reflexivity).
  assert (Hin : (UA_BROKERTRANSPORTQUALITYOFSERVICE_ATLEASTONCE, 1) ∈
    [ (UA_BROKERTRANSPORTQUALITYOFSERVICE_BESTEFFORT, 0);
      (UA_BROKERTRANSPORTQUALITYOFSERVICE_ATLEASTONCE, 1);
      (UA_BROKERTRANSPORTQUALITYOFSERVICE_ATMOSTONCE, 2) ])
    by (apply list_elem_of_further, list_elem_of_here).
  split; [exact Hc|]. split; [reflexivity|]. split; [exact Hin|].
  apply (named_guarantees_reach_the_adapter sample_world 2 1 sample_channel sample_data
           UA_BROKERTRANSPORTQUALITYOFSERVICE_ATLEASTONCE 1 "t" (Some 7%nat) "payload" 0
           Hc); [reflexivity | exact Hin].
Defined.

Lemma qos_levels_stay_in_range_witness :
  ∃ rs w',
    run (Some 2%positive)
      [ OpRegist (sample_settings 3) (Some 7%nat) 0; OpSend (sample_settings 9) "a" 0 ]
      sample_world = Some (rs, w') ∧
    Forall qos_in_range (calls sample_world) ∧
    Forall qos_in_range (calls w').
Proof.
  assert (Hw : Forall qos_in_range (calls sample_world))
    by (repeat constructor).
  eexists _, _. split; [vm_compute; reflexivity|]. split; [exact Hw|].
  eapply (qos_levels_stay_in_range (Some 2%positive)
            [ OpRegist (sample_settings 3) (Some 7%nat) 0;
              OpSend (sample_settings 9) "a" 0 ] sample_world);
    [vm_compute; reflexivity | exact Hw].
Defined.

Lemma operations_are_defined_on_a_channel_witness :
  channel_at sample_world 2 1 sample_channel sample_data ∧
  Forall (λ op, ¬ is_close op)
    [ OpRegist None (Some 7%nat) 0; OpSend (sample_settings 2) "a" 5; OpYield 10 0 ] ∧
  ∃ rs w' c' d',
    run (Some 2%positive)
      [ OpRegist None (Some 7%nat) 0; OpSend (sample_settings 2) "a" 5; OpYield 10 0 ]
      sample_world = Some (rs, w') ∧
    length rs = length [ OpRegist None (Some 7%nat) 0; OpSend (sample_settings 2) "a" 5;
                         OpYield 10 0 ] ∧
    channel_at w' 2 1 c' d' ∧
    same_but_callback sample_data d'.
Proof.
  assert (Hc : channel_at sample_world 2 1 sample_channel sample_data)
    by (repeat split; reflexivity).
  assert (Hops : Forall (λ op, ¬ is_close op)
    [ OpRegist None (Some 7%nat) 0; OpSend (sample_settings 2) "a" 5; OpYield 10 0 ])
    by (repeat constructor; simpl; tauto).
  split; [exact Hc|]. split; [exact Hops|].
  apply (operations_are_defined_on_a_channel sample_world 2 1 sample_channel sample_data
           _ Hc Hops).
Defined.

Lemma operations_touch_only_their_channel_witness :
  ∃ rs w',
    channel_at sample_world 2 1 sample_channel sample_data ∧
    Forall (λ op, ¬ is_close op) [ OpRegist None (Some 7%nat) 0; OpSend (sample_settings 2) "a" 5 ] ∧
    run (Some 2%positive) [ OpRegist None (Some 7%nat) 0; OpSend (sample_settings 2) "a" 5 ]
      sample_world = Some (rs, w') ∧
    3%positive ≠ 2%positive ∧ 3%positive ≠ 1%positive ∧
    heap w' !! 3%positive = heap sample_world !! 3%positive.
Proof.
  assert (Hc : channel_at sample_world 2 1 sample_channel sample_data)
    by (repeat split; reflexivity).
  assert (Hops : Forall (λ op, ¬ is_close op)
    [ OpRegist None (Some 7%nat) 0; OpSend (sample_settings 2) "a" 5 ])
    by (repeat constructor; simpl; tauto).
  eexists _, _. split; [exact Hc|]. split; [exact Hops|].
  split; [vm_compute; reflexivity|]. split; [lia|]. split; [lia|].
  eapply (operations_touch_only_their_channel sample_world 2 1 sample_channel sample_data
            _ _ _ 3 Hc Hops); [vm_compute; reflexivity | lia | lia].
Defined.

Lemma error_state_fails_fast_witness :
  heap sample_world_error !! 2%positive
    = Some (BlockChannel (set_state UA_PUBSUB_CHANNEL_ERROR sample_channel)) ∧
  state (set_state UA_PUBSUB_CHANNEL_ERROR sample_channel) = UA_PUBSUB_CHANNEL_ERROR ∧
  Forall (λ op, ¬ is_close op)
    [ OpSend (sample_settings 2) "a" 0; OpYield 10 0; OpRegist None None 0 ] ∧
  run (Some 2%positive)
    [ OpSend (sample_settings 2) "a" 0; OpYield 10 0; OpRegist None None 0 ]
    sample_world_error
  = Some (error_status <$>
            [ OpSend (sample_settings 2) "a" 0; OpYield 10 0; OpRegist None None 0 ],
          sample_world_error).
Proof.
  assert (Hops : Forall (λ op, ¬ is_close op)
    [ OpSend (sample_settings 2) "a" 0; OpYield 10 0; OpRegist None None 0 ])
    by (repeat constructor; simpl; tauto).
  split; [reflexivity|]. split; [reflexivity|]. split; [exact Hops|].
  apply (error_state_fails_fast sample_world_error 2
           (set_state UA_PUBSUB_CHANNEL_ERROR sample_channel));
    [reflexivity | reflexivity | exact Hops].
Defined.

Lemma open_failure_before_connect_has_no_effect_witness :
  let a := {| calloc_channelData_ok := true; calloc_newChannel_ok := false;
              calloc_recvBuffer_ok := true; calloc_sendBuffer_ok := true;
              connect_answer := (UA_STATUSCODE_GOOD, false) |} in
  (∀ address, config_address sample_config = VariantNetworkAddressUrl address →
              ¬ reaches_connect a (resolved_config address sample_config)) ∧
  ∃ w', UA_PubSubChannelMQTT_open a sample_config sample_world = Some (NULL, w') ∧
        calls w' = calls sample_world ∧ heap w' = heap sample_world.
Proof.
  intros a.
  assert (Hn : ∀ address, config_address sample_config = VariantNetworkAddressUrl address →
                 ¬ reaches_connect a (resolved_config address sample_config)).
  { intros address _ (_ & H2 & _). simpl in H2. discriminate H2. }
  split; [exact Hn|].
  apply (open_failure_before_connect_has_no_effect a sample_config sample_world Hn).
Defined.

Lemma open_returns_ready_channel_witness :
  UA_PubSubChannelMQTT_open (all_ok (UA_STATUSCODE_GOOD, false)) sample_config empty_world
    = Some (Some 2%positive, sample_world) ∧
  ∃ address h d,
    config_address sample_config = VariantNetworkAddressUrl address ∧
    reaches_connect (all_ok (UA_STATUSCODE_GOOD, false)) (resolved_config address sample_config) ∧
    (connect_answer (all_ok (UA_STATUSCODE_GOOD, false))).1 = UA_STATUSCODE_GOOD ∧
    calls sample_world = CallConnect h :: calls empty_world ∧
    channel_at sample_world 2 h {| state := UA_PUBSUB_CHANNEL_RDY; handle := Some h |} d ∧
    same_config d (resolved_config address sample_config) ∧
    buffer_ok sample_world (mqttRecvBufferSize d) (mqttRecvBuffer d) ∧
    buffer_ok sample_world (mqttSendBufferSize d) (mqttSendBuffer d) ∧
    callback d = None ∧
    heap empty_world !! 2%positive = None ∧
    heap empty_world ⊆ heap sample_world.
Proof.
  split; [exact sample_world_opened|].
  apply (open_returns_ready_channel (all_ok (UA_STATUSCODE_GOOD, false)) sample_config
           empty_world 2 sample_world sample_world_opened).
Defined.

Lemma open_with_zero_sizes_needs_no_buffer_witness :
  let a := {| calloc_channelData_ok := true; calloc_newChannel_ok := true;
              calloc_recvBuffer_ok := false; calloc_sendBuffer_ok := false;
              connect_answer := (UA_STATUSCODE_GOOD, false) |} in
  let address := {| networkInterface := ""; url := "opc.mqtt://broker:1883" |} in
  config_address zero_size_config = VariantNetworkAddressUrl address ∧
  mqttRecvBufferSize (resolved_config address zero_size_config) = 0 ∧
  mqttSendBufferSize (resolved_config address zero_size_config) = 0 ∧
  calloc_channelData_ok a = true ∧ calloc_newChannel_ok a = true ∧
  (connect_answer a).1 = UA_STATUSCODE_GOOD ∧
  ∃ p h d w',
    UA_PubSubChannelMQTT_open a zero_size_config empty_world = Some (Some p, w') ∧
    channel_at w' p h {| state := UA_PUBSUB_CHANNEL_RDY; handle := Some h |} d ∧
    mqttRecvBuffer d = NULL ∧ mqttSendBuffer d = NULL.
Proof.
  intros a address.
  split; [reflexivity|]. split; [reflexivity|]. split; [reflexivity|].
  split; [reflexivity|]. split; [reflexivity|]. split; [reflexivity|].
  apply (open_with_zero_sizes_needs_no_buffer a zero_size_config address empty_world);
    reflexivity.
Defined.

Lemma open_then_close_frees_the_channel_witness :
  let a := all_ok (UA_STATUSCODE_GOOD, false) in
  let address := {| networkInterface := ""; url := "opc.mqtt://broker:1883" |} in
  config_address sample_config = VariantNetworkAddressUrl address ∧
  reaches_connect a (resolved_config address sample_config) ∧
  (connect_answer a).1 = UA_STATUSCODE_GOOD ∧
  ∃ p h c d w1 w2,
    UA_PubSubChannelMQTT_open a sample_config sample_world_error = Some (Some p, w1) ∧
    channel_at w1 p h c d ∧
    UA_PubSubChannelMQTT_close (Some p) w1 = Some (UA_STATUSCODE_GOOD, w2) ∧
    calls w2 = CallDisconnect h :: CallConnect h :: calls sample_world_error ∧
    heap w2 !! p = None ∧ heap w2 !! h = None ∧
    heap sample_world_error ⊆ heap w2.
Proof.
  intros a address.
  split; [reflexivity|]. split; [repeat split; reflexivity|]. split; [reflexivity|].
  apply (open_then_close_frees_the_channel a sample_config address sample_world_error);
    [reflexivity | repeat split; reflexivity | reflexivity].
Defined.

Lemma channels_are_independent_witness :
  ∃ p1 w1 p2 w2 rs w3,
    UA_PubSubChannelMQTT_open (all_ok (UA_STATUSCODE_GOOD, false)) sample_config empty_world
      = Some (Some p1, w1) ∧
    UA_PubSubChannelMQTT_open (all_ok (UA_STATUSCODE_GOOD, false)) zero_size_config w1
      = Some (Some p2, w2) ∧
    Forall (λ op, ¬ is_close op)
      [ OpRegist (sample_settings 2) (Some 7%nat) 0; OpSend (sample_settings 2) "a" 5 ] ∧
    run (Some p2)
      [ OpRegist (sample_settings 2) (Some 7%nat) 0; OpSend (sample_settings 2) "a" 5 ] w2
      = Some (rs, w3) ∧
    p1 ≠ p2 ∧
    ∃ h1 d1,
      channel_at w1 p1 h1 {| state := UA_PUBSUB_CHANNEL_RDY; handle := Some h1 |} d1 ∧
      channel_at w3 p1 h1 {| state := UA_PUBSUB_CHANNEL_RDY; handle := Some h1 |} d1.
Proof.
  assert (Hops : Forall (λ op, ¬ is_close op)
    [ OpRegist (sample_settings 2) (Some 7%nat) 0; OpSend (sample_settings 2) "a" 5 ])
    by (repeat constructor; simpl; tauto).
  eexists _, _, _, _, _, _.
  split; [vm_compute; reflexivity|]. split; [vm_compute; reflexivity|].
  split; [exact Hops|]. split; [vm_compute; reflexivity|].
  eapply (channels_are_independent (all_ok (UA_STATUSCODE_GOOD, false)) sample_config
            (all_ok (UA_STATUSCODE_GOOD, false)) zero_size_config empty_world);
    [vm_compute; reflexivity | vm_compute; reflexivity | exact Hops
    | vm_compute; reflexivity].
Defined.
